(** * Design-principle demonstrations: a shallow embedding and its properties

    The repository holds four independent Python scripts, one per design
    principle.  Each script is embedded in a module named after it:

    - [srp]  (single responsibility): [ShoppingList], [PersistenceManager];
    - [ocp]  (open/closed): [Specification], [AndSpecification], [BetterFilter];
    - [isp]  (interface segregation): [Printer], [Scanner], [MyPrinter], ...;
    - [dip]  (dependency inversion): [Relationships], [Research].

    Python integers are unbounded and are modelled by [Z]; [str] values are
    modelled by [string]; Python lists by [list]; objects that are mutated are
    threaded through explicitly, with exceptions as an outcome next to the
    state that was reached when they were raised. *)

From Stdlib Require Import ZArith List String Ascii Lia Bool Sorted.
From stdpp Require Import base option list gmap strings pretty.

Local Open Scope string_scope.
Local Open Scope list_scope.
Local Open Scope Z_scope.

(** ** Python outcomes *)

(** The exceptions the scripts can meet. *)
Inductive exception : Type :=
  | IndexError
  | AttributeError
  | NotImplementedError
  | TypeError
  | ValueError
  | OSError
  | UnicodeEncodeError.

Global Instance exception_eq_dec : EqDecision exception.
Proof. solve_decision. Defined.

(** A statement either completes with a value or raises. *)
Inductive outcome (A : Type) : Type :=
  | Return (a : A)
  | Raise (e : exception).
Arguments Return {A} a.
Arguments Raise {A} e.

(** A method body run against a mutable object (or world) of type [S]: the
    state comes back in both cases, as it is when the body is left. *)
Definition py (S A : Type) : Type := S -> outcome A * S.

Definition py_ret {S A} (a : A) : py S A := fun s => (Return a, s).

Definition py_bind {S A B} (m : py S A) (k : A -> py S B) : py S B :=
  fun s =>
    match m s with
    | (Return a, s') => k a s'
    | (Raise e, s') => (Raise e, s')
    end.

Definition py_raise {S A} (e : exception) : py S A := fun s => (Raise e, s).

Definition py_get {S} : py S S := fun s => (Return s, s).

Definition py_put {S} (s : S) : py S unit := fun _ => (Return tt, s).

(** Lifting of an expression that may raise but does not touch the state. *)
Definition py_lift {S A} (o : outcome A) : py S A := fun s => (o, s).

Declare Scope py_scope.
Delimit Scope py_scope with py.
Notation "'let!' x ':=' m 'in' k" := (py_bind m (fun x => k))
  (at level 10, x name, m at level 100, k at level 200,
   format "'[v' 'let!'  x  ':='  m  'in' '/' k ']'") : py_scope.
Notation "m ';;;' k" := (py_bind m (fun _ => k))
  (at level 100, k at level 200, right associativity) : py_scope.
Local Open Scope py_scope.

Local Set Warnings "-register-all".

(** ** Built-in operations on lists and strings *)

(** [del l[pos]]: a negative position counts from the end; a position that
    is still outside [0, len(l)) raises [IndexError]. *)
Definition list_index {A} (l : list A) (pos : Z) : outcome nat :=
  let i := if pos <? 0 then pos + Z.of_nat (length l) else pos in
  if (i <? 0) || (Z.of_nat (length l) <=? i) then Raise IndexError
  else Return (Z.to_nat i).

Definition list_delitem {A} (l : list A) (pos : Z) : outcome (list A) :=
  match list_index l pos with
  | Return i => Return (delete i l)
  | Raise e => Raise e
  end.

(** [sep.join(l)] *)
Definition join (sep : string) (l : list string) : string := String.concat sep l.

Definition newline : string := String "010" EmptyString.

(** [str(n)] for an integer: decimal digits, with a leading minus sign. *)
Definition str_of_int (n : Z) : string := pretty n.

(** ** srp.py *)

Module srp.

Module ShoppingList.

(** The two attributes [__init__] gives an instance. *)
Record t : Type := mk { entries : list string; count : Z }.

Definition __init__ : t := {| entries := []; count := 0 |}.

(** The f-string [f"{self.count}: {text}"]. *)
Definition label (n : Z) (text : string) : string :=
  str_of_int n +:+ ": " +:+ text.

Definition add_entry (text : string) : py t unit :=
  let! self := py_get in
  py_put {| entries := entries self ++ [label (count self) text];
            count := count self |} ;;;
  let! self := py_get in
  py_put {| entries := entries self; count := count self + 1 |}.

Definition remove_entry (pos : Z) : py t unit :=
  let! self := py_get in
  let! l := py_lift (list_delitem (entries self) pos) in
  py_put {| entries := l; count := count self |} ;;;
  let! self := py_get in
  py_put {| entries := entries self; count := count self - 1 |}.

Definition __str__ (self : t) : string := join newline (entries self).

(** A caller's script: a sequence of calls on one list; the first call
    that raises ends the script. *)
Inductive call : Type :=
  | AddEntry (text : string)
  | RemoveEntry (pos : Z).

Definition run_call (c : call) : py t unit :=
  match c with
  | AddEntry text => add_entry text
  | RemoveEntry pos => remove_entry pos
  end.

Fixpoint run (cs : list call) : py t unit :=
  match cs with
  | [] => py_ret tt
  | c :: cs' => run_call c ;;; run cs'
  end.

Definition is_add (c : call) : bool :=
  match c with AddEntry _ => true | RemoveEntry _ => false end.

Definition additions (cs : list call) : nat := length (List.filter is_add cs).
Definition removals (cs : list call) : nat :=
  length (List.filter (fun c => negb (is_add c)) cs).

End ShoppingList.

(** The files of the machine the script runs on, as far as [open], [write]
    and [close] go.  Which destinations can be opened and which texts can
    be written is the environment's business: it is a field of the world. *)
Module io.

Definition handle : Type := nat.

Record world : Type := mk {
  files : gmap string string;       (* path |-> contents *)
  open_files : gmap handle string;  (* handles opened and not yet closed *)
  next_handle : handle;
  open_error : string -> option exception;
  write_error : string -> option exception
}.

(** [open(filename, "w")]: raises when the destination cannot be opened;
    otherwise truncates it and hands out a new handle. *)
Definition open_w (filename : string) : py world handle :=
  fun w =>
    match open_error w filename with
    | Some e => (Raise e, w)
    | None =>
        let file := next_handle w in
        (Return file,
         {| files := <[filename := ""]> (files w);
            open_files := <[file := filename]> (open_files w);
            next_handle := S file;
            open_error := open_error w;
            write_error := write_error w |})
    end.

(** [file.write(text)]: raises on a closed handle and when the text
    cannot be written (for instance when it cannot be encoded). *)
Definition write (file : handle) (text : string) : py world unit :=
  fun w =>
    match open_files w !! file with
    | None => (Raise ValueError, w)
    | Some path =>
        match write_error w text with
        | Some e => (Raise e, w)
        | None =>
            (Return tt,
             {| files := <[path := default "" (files w !! path) +:+ text]> (files w);
                open_files := open_files w;
                next_handle := next_handle w;
                open_error := open_error w;
                write_error := write_error w |})
        end
    end.

(** [file.close()]: releases the handle; closing twice is allowed. *)
Definition close (file : handle) : py world unit :=
  fun w =>
    (Return tt,
     {| files := files w;
        open_files := delete file (open_files w);
        next_handle := next_handle w;
        open_error := open_error w;
        write_error := write_error w |}).

Definition is_open (w : world) (file : handle) : bool :=
  bool_decide (is_Some (open_files w !! file)).

End io.

Module PersistenceManager.

Definition save_to_file (journal : ShoppingList.t) (filename : string)
  : py io.world unit :=
  let! file := io.open_w filename in
  io.write file (ShoppingList.__str__ journal) ;;;
  io.close file.

End PersistenceManager.

(** The class the script starts from, which also saves itself. *)
Module ShoppingListWrong.

Record t : Type := mk { entries : list string; count : Z }.

Definition __init__ : t := {| entries := []; count := 0 |}.

Definition add_entry (text : string) : py t unit :=
  let! self := py_get in
  py_put {| entries := entries self ++ [ShoppingList.label (count self) text];
            count := count self |} ;;;
  let! self := py_get in
  py_put {| entries := entries self; count := count self + 1 |}.

Definition remove_entry (pos : Z) : py t unit :=
  let! self := py_get in
  let! l := py_lift (list_delitem (entries self) pos) in
  py_put {| entries := l; count := count self |} ;;;
  let! self := py_get in
  py_put {| entries := entries self; count := count self - 1 |}.

Definition __str__ (self : t) : string := join newline (entries self).

Definition save (self : t) (filename : string) : py io.world unit :=
  let! file := io.open_w filename in
  io.write file (__str__ self) ;;;
  io.close file.

(** The list of the separated design that holds the same attributes. *)
Definition separated (self : t) : ShoppingList.t :=
  {| ShoppingList.entries := entries self; ShoppingList.count := count self |}.

End ShoppingListWrong.

(** The demonstration of the script's main block, up to the save. *)
Definition shopping_list : ShoppingList.t :=
  snd (ShoppingList.run
         [ShoppingList.AddEntry "bread"; ShoppingList.AddEntry "phone"]
         ShoppingList.__init__).

(** A destination opened under an ASCII locale: [write] encodes the text
    and raises [UnicodeEncodeError] on a character outside ASCII. *)
Definition ascii_only (text : string) : option exception :=
  if forallb (fun c => (nat_of_ascii c <? 128)%nat) (list_ascii_of_string text)
  then None
  else Some UnicodeEncodeError.

Definition ascii_world : io.world :=
  {| io.files := ∅;
     io.open_files := ∅;
     io.next_handle := 0%nat;
     io.open_error := fun _ => None;
     io.write_error := ascii_only |}.

(** A list with the one entry "café" (the last letter is U+00E9). *)
Definition cafe_list : ShoppingList.t :=
  snd (ShoppingList.add_entry ("caf" +:+ String "233" EmptyString)
         ShoppingList.__init__).

(** A machine on which no destination can be opened for writing. *)
Definition read_only_world : io.world :=
  {| io.files := {[ "/tmp/shopping-list.txt" := "old" ]};
     io.open_files := ∅;
     io.next_handle := 0%nat;
     io.open_error := fun _ => Some OSError;
     io.write_error := fun _ => None |}.


(** The entry that the [i]-th call of the script [cs] inserted: that call
    is an addition, and the label is the count the list had when it ran. *)
Definition inserted_by (cs : list ShoppingList.call) (i : nat) (entry : string)
  : Prop :=
  exists text before,
    cs !! i = Some (ShoppingList.AddEntry text) /\
    ShoppingList.run (take i cs) ShoppingList.__init__ = (Return tt, before) /\
    entry = ShoppingList.label (ShoppingList.count before) text.

(** The invariant of a script that has run without raising. *)
Definition script_invariant (cs : list ShoppingList.call) (self : ShoppingList.t)
  : Prop :=
  ShoppingList.count self
    = Z.of_nat (ShoppingList.additions cs) - Z.of_nat (ShoppingList.removals cs) /\
  ShoppingList.count self = Z.of_nat (length (ShoppingList.entries self)) /\
  exists kept : list nat,
    StronglySorted lt kept /\
    Forall2 (inserted_by cs) kept (ShoppingList.entries self).

(** The position a removal addresses in a list of [len] entries: positions
    below zero count from the end. *)
Definition addressed (len : nat) (pos : Z) : nat :=
  Z.to_nat (if pos <? 0 then pos + Z.of_nat len else pos).

(** The remaining entries of a script, named by the place in the script of
    the addition that inserted each, oldest first: an addition joins at the
    end, a removal takes out the one at the position it addresses, and
    nothing else changes. *)
Fixpoint surviving_from (step : nat) (kept : list nat) (cs : list ShoppingList.call)
  : list nat :=
  match cs with
  | [] => kept
  | ShoppingList.AddEntry _ :: cs' => surviving_from (S step) (kept ++ [step]) cs'
  | ShoppingList.RemoveEntry pos :: cs' =>
      surviving_from (S step) (delete (addressed (length kept) pos) kept) cs'
  end.

Definition surviving (cs : list ShoppingList.call) : list nat :=
  surviving_from 0 [] cs.

(** The entry the [i]-th call of the script inserted: the text it was given,
    after the number of additions minus the number of removals made before
    it, a colon and a space. *)
Definition entry_of (cs : list ShoppingList.call) (i : nat) : string :=
  match cs !! i with
  | Some (ShoppingList.AddEntry text) =>
      pretty (Z.of_nat (ShoppingList.additions (take i cs))
              - Z.of_nat (ShoppingList.removals (take i cs)))
      +:+ String ":" (String " " text)
  | _ => ""
  end.

(** Lines joined by newlines: nothing for no line, the line for one line,
    and otherwise the first line, a line feed and the rest joined. *)
Fixpoint newline_joined (lines : list string) : string :=
  match lines with
  | [] => EmptyString
  | line :: rest =>
      match rest with
      | [] => line
      | _ :: _ => line +:+ String (ascii_of_nat 10) (newline_joined rest)
      end
  end.

End srp.

(** ** ocp.py *)

Module ocp.

Inductive Color : Type := RED | GREEN | BLUE.
Inductive Size : Type := SMALL | MEDIUM | LARGE.

Global Instance Color_eq_dec : EqDecision Color.
Proof. solve_decision. Defined.
Global Instance Size_eq_dec : EqDecision Size.
Proof. solve_decision. Defined.

Record Product : Type := mk { name : string; color : Color; size : Size }.

Global Instance Product_eq_dec : EqDecision Product.
Proof. solve_decision. Defined.

(** What [is_satisfied] hands back: [None] from the base class, whose body
    is [pass], and a [bool] from the others. *)
Inductive value : Type :=
  | PyNone
  | PyBool (b : bool).

(** Truth value testing, as [if], [and] and [all] apply it. *)
Definition truthy (v : value) : bool :=
  match v with PyNone => false | PyBool b => b end.

(** [a and b] *)
Definition py_and (a b : value) : value := if truthy a then b else a.

(** [all(iterable)] *)
Definition all (vs : list value) : bool := forallb truthy vs.

(** [str.lower()] on the ASCII letters. *)
Definition lower_char (c : ascii) : ascii :=
  let n := nat_of_ascii c in
  if ((65 <=? n) && (n <=? 90))%nat then ascii_of_nat (n + 32) else c.

Fixpoint lower (s : string) : string :=
  match s with
  | EmptyString => EmptyString
  | String c s' => String (lower_char c) (lower s')
  end.

(** The class [Specification] and its subclasses; [BaseSpecification] is
    an instance of the base class itself. *)
Inductive Specification : Type :=
  | BaseSpecification
  | ColorSpecification (color : Color)
  | SizeSpecification (size : Size)
  | NameSpecification (name : string)
  | AndSpecificationWorse (spec1 spec2 : Specification)
  | AndSpecification (args : list Specification).

Fixpoint is_satisfied (self : Specification) (item : Product) : value :=
  match self with
  | BaseSpecification => PyNone
  | ColorSpecification c => PyBool (bool_decide (color item = c))
  | SizeSpecification s => PyBool (bool_decide (size item = s))
  | NameSpecification n => PyBool (bool_decide (lower (name item) = lower n))
  | AndSpecificationWorse spec1 spec2 =>
      py_and (is_satisfied spec1 item) (is_satisfied spec2 item)
  | AndSpecification args =>
      PyBool (all (map (fun spec => is_satisfied spec item) args))
  end.

(** The operator [&], inherited by every subclass. *)
Definition __and__ (self other : Specification) : Specification :=
  AndSpecification [self; other].

(** The test [if spec.is_satisfied(item)]. *)
Definition satisfied (spec : Specification) (item : Product) : bool :=
  truthy (is_satisfied spec item).

(** A generator over a finite input: either it is exhausted, or it is
    suspended at a [yield] with the value yielded and the rest of the loop,
    which runs only when the consumer asks for the next value. *)
Inductive generator (A : Type) : Type :=
  | StopIteration
  | Yield (a : A) (resume : unit -> generator A).
Arguments StopIteration {A}.
Arguments Yield {A} a resume.

Definition next {A} (g : generator A) : option (A * generator A) :=
  match g with
  | StopIteration => None
  | Yield a resume => Some (a, resume tt)
  end.

(** [list(g)]: the values in the order they are yielded. *)
Fixpoint to_list {A} (g : generator A) : list A :=
  match g with
  | StopIteration => []
  | Yield a resume => a :: to_list (resume tt)
  end.

Module BetterFilter.

Fixpoint filter (items : list Product) (spec : Specification)
  : generator Product :=
  match items with
  | [] => StopIteration
  | item :: items' =>
      if truthy (is_satisfied spec item)
      then Yield item (fun _ => filter items' spec)
      else filter items' spec
  end.

End BetterFilter.

(** Two names that differ in the case of ASCII letters only: character by
    character they are equal, or one is a capital letter and the other the
    small letter 32 places further. *)
Definition is_capital (c : ascii) : bool :=
  ((65 <=? nat_of_ascii c) && (nat_of_ascii c <=? 90))%nat.

Definition same_letter (a b : ascii) : Prop :=
  a = b \/
  (is_capital a = true /\ nat_of_ascii b = (nat_of_ascii a + 32)%nat) \/
  (is_capital b = true /\ nat_of_ascii a = (nat_of_ascii b + 32)%nat).

Fixpoint same_ignoring_case (s t : string) : Prop :=
  match s, t with
  | EmptyString, EmptyString => True
  | String a s', String b t' => same_letter a b /\ same_ignoring_case s' t'
  | _, _ => False
  end.

(** A name written in ASCII only; on such names [str.lower()] changes the
    letters A to Z and nothing else. *)
Definition is_ascii (s : string) : bool :=
  forallb (fun c => (nat_of_ascii c <? 128)%nat) (list_ascii_of_string s).

(** The filter the script starts from: one method per criterion. *)
Module ProductFilter.

Fixpoint filter_by_color (products : list Product) (color0 : Color)
  : generator Product :=
  match products with
  | [] => StopIteration
  | p :: products' =>
      if bool_decide (color p = color0)
      then Yield p (fun _ => filter_by_color products' color0)
      else filter_by_color products' color0
  end.

Fixpoint filter_by_size (products : list Product) (size0 : Size)
  : generator Product :=
  match products with
  | [] => StopIteration
  | p :: products' =>
      if bool_decide (size p = size0)
      then Yield p (fun _ => filter_by_size products' size0)
      else filter_by_size products' size0
  end.

Fixpoint filter_by_size_and_color (products : list Product) (size0 : Size)
    (color0 : Color) : generator Product :=
  match products with
  | [] => StopIteration
  | p :: products' =>
      if bool_decide (color p = color0) && bool_decide (size p = size0)
      then Yield p (fun _ => filter_by_size_and_color products' size0 color0)
      else filter_by_size_and_color products' size0 color0
  end.

End ProductFilter.

(** The products and specifications of the main block. *)
Definition apple : Product := {| name := "Apple"; color := GREEN; size := SMALL |}.
Definition tree : Product := {| name := "Tree"; color := GREEN; size := LARGE |}.
Definition house : Product := {| name := "House"; color := BLUE; size := LARGE |}.
Definition products : list Product := [apple; tree; house].
Definition large : Specification := SizeSpecification LARGE.
Definition large_blue : Specification := __and__ large (ColorSpecification BLUE).
Definition large_blue_house : Specification :=
  __and__ large_blue (NameSpecification "house").

End ocp.

(** ** isp.py *)

Module isp.

Inductive class : Type :=
  | object
  | Machine
  | MultiFunctionPrinter
  | OldFashionedPrinter
  | Printer
  | Scanner
  | MyPrinter
  | Photocopier
  | MultiFunctionDevice
  | MultiFunctionMachine.

Global Instance class_eq_dec : EqDecision class.
Proof. solve_decision. Defined.

(** The bases each [class] statement names. *)
Definition bases (c : class) : list class :=
  match c with
  | object => []
  | Machine | Printer | Scanner => [object]
  | MultiFunctionPrinter | OldFashionedPrinter => [Machine]
  | MyPrinter => [Printer]
  | Photocopier | MultiFunctionDevice => [Printer; Scanner]
  | MultiFunctionMachine => [MultiFunctionDevice]
  end.

(** The method resolution order of each class. *)
Definition mro (c : class) : list class :=
  match c with
  | object => [object]
  | Machine => [Machine; object]
  | MultiFunctionPrinter => [MultiFunctionPrinter; Machine; object]
  | OldFashionedPrinter => [OldFashionedPrinter; Machine; object]
  | Printer => [Printer; object]
  | Scanner => [Scanner; object]
  | MyPrinter => [MyPrinter; Printer; object]
  | Photocopier => [Photocopier; Printer; Scanner; object]
  | MultiFunctionDevice => [MultiFunctionDevice; Printer; Scanner; object]
  | MultiFunctionMachine =>
      [MultiFunctionMachine; MultiFunctionDevice; Printer; Scanner; object]
  end.

(** The bodies the methods of the script have. *)
Inductive body : Type :=
  | Pass                                  (* pass *)
  | RaiseNotImplementedError              (* raise NotImplementedError(...) *)
  | PrintText (text : string)             (* print("...") *)
  | PrintDocument                         (* print(document) *)
  | Forward (attr method : string).       (* self.attr.method(document) *)

(** The methods each class body defines; [object] defines none of the
    names the script calls. *)
Definition methods (c : class) : list (string * body) :=
  match c with
  | object => []
  | Machine =>
      [("print", RaiseNotImplementedError);
       ("fax", RaiseNotImplementedError);
       ("scan", RaiseNotImplementedError)]
  | MultiFunctionPrinter => [("print", Pass); ("fax", Pass); ("scan", Pass)]
  | OldFashionedPrinter =>
      [("print", PrintText "Start printing...");
       ("fax", Pass);
       ("scan", RaiseNotImplementedError)]
  | Printer => [("print", Pass)]
  | Scanner => [("scan", Pass)]
  | MyPrinter => [("print", PrintDocument)]
  | Photocopier => [("print", PrintDocument); ("scan", Pass)]
  | MultiFunctionDevice => [("print", Pass); ("scan", Pass)]
  | MultiFunctionMachine =>
      [("print", Forward "printer" "print"); ("scan", Forward "scanner" "scan")]
  end.

Definition own_method (c : class) (name : string) : option body :=
  snd <$> List.find (fun m => bool_decide (fst m = name)) (methods c).

(** Attribute lookup on the type: the first class of the resolution order
    whose body defines the name. *)
Fixpoint lookup_in (cs : list class) (name : string) : option body :=
  match cs with
  | [] => None
  | c :: cs' =>
      match own_method c name with
      | Some b => Some b
      | None => lookup_in cs' name
      end
  end.

Definition lookup_method (c : class) (name : string) : option body :=
  lookup_in (mro c) name.

(** Instances: [New c] has no attribute of its own; a
    [MultiFunctionMachine(printer, scanner)] holds its two delegates. *)
Inductive instance : Type :=
  | New (c : class)
  | NewMultiFunctionMachine (printer scanner : instance).

Definition class_of (self : instance) : class :=
  match self with
  | New c => c
  | NewMultiFunctionMachine _ _ => MultiFunctionMachine
  end.

(** The attributes in the instance's own [__dict__]. *)
Definition instance_attr (self : instance) (name : string) : option instance :=
  match self with
  | New _ => None
  | NewMultiFunctionMachine printer scanner =>
      if bool_decide (name = "printer") then Some printer
      else if bool_decide (name = "scanner") then Some scanner
      else None
  end.

(** Standard output, one line per [print]. *)
Definition stdout : Type := list string.

(** [self.name(document)]: the instance's own attributes shadow the
    class's (and a delegate is not callable); a name found nowhere raises
    [AttributeError]. *)
Fixpoint call (self : instance) (name : string) (document : string)
  : py stdout unit :=
  match instance_attr self name with
  | Some _ => py_raise TypeError
  | None =>
      match lookup_method (class_of self) name with
      | None => py_raise AttributeError
      | Some Pass => py_ret tt
      | Some RaiseNotImplementedError => py_raise NotImplementedError
      | Some (PrintText text) => fun out => (Return tt, out ++ [text])
      | Some PrintDocument => fun out => (Return tt, out ++ [document])
      | Some (Forward attr method) =>
          match self with
          | New _ => py_raise AttributeError
          | NewMultiFunctionMachine printer scanner =>
              if bool_decide (attr = "printer") then call printer method document
              else if bool_decide (attr = "scanner") then call scanner method document
              else py_raise AttributeError
          end
      end
  end.

(** The three capabilities the script talks about, the method each one
    is, and the interface that declares it ("Same for Fax, etc.": the
    script writes no interface for fax). *)
Inductive capability : Type := printing | scanning | faxing.

Definition operation (cap : capability) : string :=
  match cap with printing => "print" | scanning => "scan" | faxing => "fax" end.

Definition interface (cap : capability) : option class :=
  match cap with
  | printing => Some Printer
  | scanning => Some Scanner
  | faxing => None
  end.

(** A class implements a capability when it inherits its interface. *)
Definition implements (c : class) (cap : capability) : bool :=
  match interface cap with
  | Some i => bool_decide (i ∈ mro c)
  | None => false
  end.

(** The device classes of the segregated design. *)
Definition segregated_devices : list class :=
  [MyPrinter; Photocopier; MultiFunctionMachine].

(** The classes that inherit the broad interface [Machine], and the class
    itself. *)
Definition broad_devices : list class :=
  [Machine; MultiFunctionPrinter; OldFashionedPrinter].

(** Devices put together as the segregated design intends: a printer, a
    photocopier, or a machine whose [printer] delegate prints and whose
    [scanner] delegate scans. *)
Inductive assembled : instance -> Prop :=
  | assembled_printer : assembled (New MyPrinter)
  | assembled_photocopier : assembled (New Photocopier)
  | assembled_machine (printer scanner : instance) :
      assembled printer -> assembled scanner ->
      implements (class_of printer) printing = true ->
      implements (class_of scanner) scanning = true ->
      assembled (NewMultiFunctionMachine printer scanner).

(** "Not a runtime error": whatever the document and the output so far,
    the call raises nothing. *)
Definition raises_nothing (self : instance) (name : string) : Prop :=
  forall (document : string) (out : stdout) (e : exception),
    fst (call self name document out) <> Raise e.

End isp.

(** ** dip.py *)

Module dip.

Inductive Relationship : Type := PARENT | CHILD | SIBLING.

Global Instance Relationship_eq_dec : EqDecision Relationship.
Proof. solve_decision. Defined.

Record Person : Type := mk_Person { name : string }.

(** The tuples stored: [(r[0], r[1], r[2])]. *)
Definition edge : Type := Person * Relationship * Person.

(** Objects live in a heap and are named by references, so that two names
    for one list see the same mutations. *)
Definition ref : Type := nat.

Inductive obj : Type :=
  | ListObject (items : list edge)
  | InstanceObject (attrs : gmap string ref).

Record heap : Type := mk_heap {
  objects : gmap ref obj;
  (** the namespace of the class [Relationships] *)
  class_attrs : gmap string ref
}.

Definition alloc (o : obj) : py heap ref :=
  fun h =>
    let r := fresh (dom (objects h)) in
    (Return r, {| objects := <[r := o]> (objects h); class_attrs := class_attrs h |}).

(** Running the statement [class Relationships: relations = [] ...] once,
    at import: one list is created and bound in the class namespace. *)
Definition class_Relationships : py heap unit :=
  let! l := alloc (ListObject []) in
  fun h =>
    (Return tt,
     {| objects := objects h; class_attrs := <["relations" := l]> (class_attrs h) |}).

Definition empty_heap : heap := {| objects := ∅; class_attrs := ∅ |}.

Module Relationships.

(** [Relationships()]: the class has no [__init__]; the instance starts
    with an empty [__dict__]. *)
Definition new : py heap ref := alloc (InstanceObject ∅).

(** [self.name]: the instance's own attributes first, then the class's. *)
Definition getattr (self : ref) (attr : string) : py heap ref :=
  fun h =>
    match objects h !! self with
    | Some (InstanceObject attrs) =>
        match attrs !! attr with
        | Some r => (Return r, h)
        | None =>
            match class_attrs h !! attr with
            | Some r => (Return r, h)
            | None => (Raise AttributeError, h)
            end
        end
    | _ => (Raise AttributeError, h)
    end.

(** [l.append(x)] on the list object behind [l], in place. *)
Definition append (l : ref) (x : edge) : py heap unit :=
  fun h =>
    match objects h !! l with
    | Some (ListObject items) =>
        (Return tt,
         {| objects := <[l := ListObject (items ++ [x])]> (objects h);
            class_attrs := class_attrs h |})
    | _ => (Raise AttributeError, h)
    end.

Definition add_parent_and_child (self : ref) (parent child : Person)
  : py heap unit :=
  let! l := getattr self "relations" in
  append l (parent, PARENT, child) ;;;
  let! l := getattr self "relations" in
  append l (child, PARENT, parent).

(** The generator [find_all_children_of(name)] makes: not yet started,
    suspended in the loop with the list iterator at a position, or
    finished. *)
Inductive generator : Type :=
  | Created (self : ref) (name : string)
  | Suspended (l : ref) (pos : nat) (name : string)
  | Finished.

(** The loop body's test. *)
Definition is_parent_named (name0 : string) (r : edge) : bool :=
  bool_decide (name (fst (fst r)) = name0) && bool_decide (snd (fst r) = PARENT).

(** The loop from position [pos] on, over the items left: the first
    match is yielded, with the position after it. *)
Fixpoint loop (name0 : string) (rest : list edge) (pos : nat)
  : option (string * nat) :=
  match rest with
  | [] => None
  | r :: rest' =>
      if is_parent_named name0 r then Some (name (snd r), S pos)
      else loop name0 rest' (S pos)
  end.

Definition resume (l : ref) (pos : nat) (name0 : string)
  : py heap (option string * generator) :=
  fun h =>
    match objects h !! l with
    | Some (ListObject items) =>
        match loop name0 (drop pos items) pos with
        | Some (child, pos') => (Return (Some child, Suspended l pos' name0), h)
        | None => (Return (None, Finished), h)
        end
    | _ => (Raise TypeError, h)
    end.

(** [next(g)]: [None] stands for [StopIteration]. *)
Definition next (g : generator) : py heap (option string * generator) :=
  match g with
  | Created self name0 =>
      let! l := getattr self "relations" in
      resume l 0 name0
  | Suspended l pos name0 => resume l pos name0
  | Finished => py_ret (None, Finished)
  end.

Definition find_all_children_of (self : ref) (name0 : string) : generator :=
  Created self name0.

(** [list(g)], with a bound on the number of [next] calls; [None] when
    the bound is too small. *)
Fixpoint consume (fuel : nat) (g : generator) (h : heap)
  : option (outcome (list string)) :=
  match fuel with
  | O => None
  | S fuel' =>
      match next g h with
      | (Raise e, _) => Some (Raise e)
      | (Return (None, _), _) => Some (Return [])
      | (Return (Some child, g'), h') =>
          match consume fuel' g' h' with
          | Some (Return children) => Some (Return (child :: children))
          | other => other
          end
      end
  end.

(** The list a generator ranges over, and the calls of [next] that
    exhaust it for sure: one per item left, and the last one. *)
Definition items_left (g : generator) (h : heap) : nat :=
  let left_in l pos :=
    match objects h !! l with
    | Some (ListObject items) => (length items - pos)%nat
    | _ => O
    end in
  match g with
  | Created self _ =>
      match getattr self "relations" h with
      | (Return l, _) => left_in l O
      | _ => O
      end
  | Suspended l pos _ => left_in l pos
  | Finished => O
  end.

Definition to_list (g : generator) (h : heap) : option (outcome (list string)) :=
  consume (S (items_left g h)) g h.

(** The edges an instance sees through [self.relations]. *)
Definition relations (self : ref) (h : heap) : option (list edge) :=
  match getattr self "relations" h with
  | (Return l, _) =>
      match objects h !! l with
      | Some (ListObject items) => Some items
      | _ => None
      end
  | _ => None
  end.

End Relationships.

(** [Research(browser)]: the lines its loop prints; the consumer knows the
    browser by its one method only. *)
Definition Research (browser : ref) (h : heap) : option (outcome (list string)) :=
  match Relationships.to_list (Relationships.find_all_children_of browser "John") h with
  | Some (Return children) =>
      Some (Return (map (fun p => "John has a child called " +:+ p) children))
  | other => other
  end.

(** The names a query for [name0] is to produce from the edges [es]: the
    objects of the edges whose subject has that name and whose kind is
    [PARENT], in the order of the store. *)
Definition children_in (name0 : string) (es : list edge) : list string :=
  map (fun r => name (snd r)) (List.filter (Relationships.is_parent_named name0) es).

(** The two edges one link appends. *)
Definition link (parent child : Person) : list edge :=
  [(parent, PARENT, child); (child, PARENT, parent)].

(** A name appears in an edge as its subject or as its object. *)
Definition appears_in (name0 : string) (r : edge) : Prop :=
  name (fst (fst r)) = name0 \/ name (snd r) = name0.

(** A caller that makes one link after the other through one instance. *)
Fixpoint link_all (self : ref) (pairs : list (Person * Person)) : py heap unit :=
  match pairs with
  | [] => py_ret tt
  | (parent, child) :: pairs' =>
      Relationships.add_parent_and_child self parent child ;;;
      link_all self pairs'
  end.

(** What a link adds to the result of the query for [name0]. *)
Definition added_by_link (name0 : string) (parent child : Person) : list string :=
  (if bool_decide (name parent = name0) then [name child] else [])
  ++ (if bool_decide (name child = name0) then [name parent] else []).

(** The persons of the main block, and the heap in which its first link
    runs: the class statement has been executed and [relationships] is the
    instance just constructed. *)
Definition parent : Person := {| name := "John" |}.
Definition child1 : Person := {| name := "Chris" |}.
Definition child2 : Person := {| name := "Matt" |}.

Definition imported : heap := snd (class_Relationships empty_heap).
Definition relationships : ref := 1%nat.
Definition main_heap : heap := snd (Relationships.new imported).

(** The heap after the first link of the main block. *)
Definition linked_heap : heap :=
  snd (Relationships.add_parent_and_child relationships parent child1 main_heap).

End dip.

(** * Properties *)

Import srp.

Lemma list_index_in_range {A} (l : list A) (pos : Z) (i : nat) :
  list_index l pos = Return i -> (i < length l)%nat.
Proof.
  unfold list_index.
  destruct (pos <? 0) eqn:Hneg;
    destruct (_ || _) eqn:Hout; intros [= <-];
    apply orb_false_iff in Hout as [H1 H2]; lia.
Qed.

Lemma list_index_raises {A} (l : list A) (pos : Z) :
  list_index l pos = Raise IndexError <->
  (pos < - Z.of_nat (length l) \/ Z.of_nat (length l) <= pos).
Proof.
  unfold list_index.
  destruct (pos <? 0) eqn:Hneg; destruct (_ || _) eqn:Hout; split;
    try discriminate; try reflexivity;
    rewrite ?orb_true_iff, ?orb_false_iff in Hout; lia.
Qed.

Example remove_entry_from_the_end :
  ShoppingList.remove_entry (-1) shopping_list =
  (Return tt, {| ShoppingList.entries := ["0: bread"]; ShoppingList.count := 1 |}).
Proof. reflexivity. Qed.

Example remove_entry_past_the_end :
  ShoppingList.remove_entry 2 shopping_list = (Raise IndexError, shopping_list) /\
  ShoppingList.remove_entry (-3) shopping_list = (Raise IndexError, shopping_list).
Proof. split; reflexivity. Qed.

(** C7: [remove_entry pos] raises [IndexError] exactly when [pos] is outside
    the positions Python accepts for the current entries (negative positions
    count from the end), it raises nothing else, and a call that raises
    leaves the entries and the count as they were. *)
Theorem remove_entry_fails_iff_out_of_range (self : ShoppingList.t) (pos : Z) :
  let len := Z.of_nat (length (ShoppingList.entries self)) in
  (fst (ShoppingList.remove_entry pos self) = Raise IndexError <->
     (pos < - len \/ len <= pos)) /\
  (forall e, fst (ShoppingList.remove_entry pos self) = Raise e ->
     e = IndexError /\ snd (ShoppingList.remove_entry pos self) = self).
Proof.
  cbn zeta. unfold ShoppingList.remove_entry, py_bind, py_lift, py_get, py_put.
  unfold list_delitem. cbn.
  destruct (list_index (ShoppingList.entries self) pos) as [i|e] eqn:Hidx; cbn.
  - split.
    + split; [discriminate|]. intros Hout.
      apply list_index_raises in Hout. congruence.
    + intros e [=].
  - assert (e = IndexError) as ->.
    { unfold list_index in Hidx. repeat case_match; congruence. }
    split.
    + split; [intros _; by apply list_index_raises | done].
    + intros e [= <-]. done.
Qed.

(** *** Entry list: count and order *)

Lemma add_entry_spec (text : string) (self : ShoppingList.t) :
  ShoppingList.add_entry text self =
  (Return tt,
   {| ShoppingList.entries :=
        ShoppingList.entries self
          ++ [ShoppingList.label (ShoppingList.count self) text];
      ShoppingList.count := ShoppingList.count self + 1 |}).
Proof. reflexivity. Qed.

Lemma remove_entry_returns (pos : Z) (self self' : ShoppingList.t) :
  ShoppingList.remove_entry pos self = (Return tt, self') ->
  exists i : nat,
    list_index (ShoppingList.entries self) pos = Return i /\
    self' = {| ShoppingList.entries := delete i (ShoppingList.entries self);
               ShoppingList.count := ShoppingList.count self - 1 |}.
Proof.
  unfold ShoppingList.remove_entry, py_bind, py_lift, py_get, py_put, list_delitem.
  cbn. destruct (list_index _ pos) as [i|e]; cbn; [|discriminate].
  intros [= <-]. by exists i.
Qed.

Lemma run_snoc (cs : list ShoppingList.call) (c : ShoppingList.call)
    (self : ShoppingList.t) :
  ShoppingList.run (cs ++ [c]) self =
  match ShoppingList.run cs self with
  | (Return _, self') => ShoppingList.run_call c self'
  | (Raise e, self') => (Raise e, self')
  end.
Proof.
  revert self. induction cs as [|c0 cs IH]; intros self; cbn.
  - unfold py_bind, py_ret. by destruct (ShoppingList.run_call c self) as [[[]|e] s].
  - unfold py_bind at 1 2. destruct (ShoppingList.run_call c0 self) as [[[]|e] s].
    + apply IH.
    + reflexivity.
Qed.

Lemma additions_snoc cs c :
  ShoppingList.additions (cs ++ [c]) =
  (ShoppingList.additions cs + if ShoppingList.is_add c then 1 else 0)%nat.
Proof.
  unfold ShoppingList.additions. rewrite List.filter_app, length_app. cbn.
  by destruct (ShoppingList.is_add c).
Qed.

Lemma removals_snoc cs c :
  ShoppingList.removals (cs ++ [c]) =
  (ShoppingList.removals cs + if ShoppingList.is_add c then 0 else 1)%nat.
Proof.
  unfold ShoppingList.removals. rewrite List.filter_app, length_app. cbn.
  by destruct (ShoppingList.is_add c).
Qed.

Lemma inserted_by_snoc cs c i entry :
  inserted_by cs i entry -> inserted_by (cs ++ [c]) i entry.
Proof.
  intros (text & before & Hi & Hrun & ->). exists text, before.
  assert (i < length cs)%nat by (by eapply lookup_lt_Some).
  split_and!; [by rewrite lookup_app_l | | done].
  by rewrite take_app_le by lia.
Qed.

Lemma StronglySorted_lt_delete (l : list nat) (i : nat) :
  StronglySorted lt l -> StronglySorted lt (delete i l).
Proof.
  intros Hl. revert i. induction Hl as [|x l Hl IH Hx]; intros [|i]; cbn.
  - constructor.
  - constructor.
  - exact Hl.
  - constructor; [apply IH|]. by apply Forall_delete.
Qed.

Lemma StronglySorted_lt_snoc (l : list nat) (n : nat) :
  StronglySorted lt l -> Forall (fun i => i < n)%nat l ->
  StronglySorted lt (l ++ [n]).
Proof.
  induction 1 as [|x l Hl IH Hx]; intros Hn; cbn.
  - repeat constructor.
  - apply Forall_cons in Hn as [Hxn Hn]. constructor; [by apply IH|].
    apply Forall_app; split; [done|]. by repeat constructor.
Qed.

Lemma Forall2_delete_both {A B} (P : A -> B -> Prop) (l : list A) (k : list B) (i : nat) :
  Forall2 P l k -> Forall2 P (delete i l) (delete i k).
Proof.
  intros H. revert i. induction H as [|x y l k Hxy H IH]; intros [|i]; cbn;
    try constructor; auto.
Qed.

Lemma script_invariant_run (cs : list ShoppingList.call) (self : ShoppingList.t) :
  ShoppingList.run cs ShoppingList.__init__ = (Return tt, self) ->
  script_invariant cs self.
Proof.
  revert self. induction cs as [|c cs IH] using rev_ind; intros self.
  - intros [= <-]. split_and!; [done..|]. exists []. split; constructor.
  - rewrite run_snoc.
    destruct (ShoppingList.run cs ShoppingList.__init__) as [[[]|e] mid] eqn:Hmid;
      [|discriminate].
    destruct (IH mid eq_refl) as (Hcount & Hlen & kept & Hsorted & Hkept).
    destruct c as [text|pos]; cbn [ShoppingList.run_call].
    + rewrite add_entry_spec. intros [= <-]. unfold script_invariant. cbn.
      rewrite additions_snoc, removals_snoc, length_app. cbn.
      split_and!; [lia..|].
      exists (kept ++ [length cs]). split.
      * apply StronglySorted_lt_snoc; [done|].
        apply Forall_forall. intros i Hi.
        apply list_elem_of_lookup in Hi as [j Hj].
        destruct (Forall2_lookup_l _ _ _ _ _ Hkept Hj) as (y & _ & (t & b & Hl & _)).
        by eapply lookup_lt_Some.
      * apply Forall2_app.
        -- eapply Forall2_impl; [exact Hkept|]. intros. by apply inserted_by_snoc.
        -- repeat constructor. exists text, mid. split_and!.
           ++ by rewrite list_lookup_middle.
           ++ by rewrite take_app_length.
           ++ done.
    + intros Hrm. apply remove_entry_returns in Hrm as (i & Hi & ->).
      unfold script_invariant. cbn.
      apply list_index_in_range in Hi.
      rewrite additions_snoc, removals_snoc. cbn.
      rewrite length_delete by (by apply lookup_lt_is_Some).
      split_and!; [lia..|].
      exists (delete i kept). split; [by apply StronglySorted_lt_delete|].
      apply Forall2_delete_both.
      eapply Forall2_impl; [exact Hkept|]. intros. by apply inserted_by_snoc.
Qed.

Lemma list_index_addressed {A} (l : list A) (pos : Z) (i : nat) :
  list_index l pos = Return i -> i = addressed (length l) pos.
Proof.
  unfold list_index, addressed.
  destruct (pos <? 0); destruct (_ || _); by intros [= <-].
Qed.

Lemma surviving_from_snoc (cs : list ShoppingList.call) (c : ShoppingList.call) :
  forall (step : nat) (kept : list nat),
    surviving_from step kept (cs ++ [c]) =
    match c with
    | ShoppingList.AddEntry _ => surviving_from step kept cs ++ [(step + length cs)%nat]
    | ShoppingList.RemoveEntry pos =>
        delete (addressed (length (surviving_from step kept cs)) pos)
          (surviving_from step kept cs)
    end.
Proof.
  induction cs as [|c0 cs IH]; intros step kept.
  - destruct c; cbn; [|done]. by rewrite Nat.add_0_r.
  - destruct c0; cbn [app surviving_from length]; rewrite IH; destruct c;
      by rewrite ?Nat.add_succ_r.
Qed.

(** The entries left are those of [surviving], each the one its addition
    inserted. *)
Lemma surviving_run (cs : list ShoppingList.call) (self : ShoppingList.t) :
  ShoppingList.run cs ShoppingList.__init__ = (Return tt, self) ->
  StronglySorted lt (surviving cs) /\
  Forall2 (inserted_by cs) (surviving cs) (ShoppingList.entries self).
Proof.
  revert self. induction cs as [|c cs IH] using rev_ind; intros self.
  - intros [= <-]. split; constructor.
  - rewrite run_snoc.
    destruct (ShoppingList.run cs ShoppingList.__init__) as [[[]|e] mid] eqn:Hmid;
      [|discriminate].
    destruct (IH mid eq_refl) as (Hsorted & Hkept).
    unfold surviving in *. rewrite surviving_from_snoc.
    destruct c as [text|pos]; cbn [ShoppingList.run_call].
    + rewrite add_entry_spec. intros [= <-]. cbn [ShoppingList.entries Nat.add].
      split.
      * apply StronglySorted_lt_snoc; [done|].
        apply Forall_forall. intros i Hi.
        apply list_elem_of_lookup in Hi as [j Hj].
        destruct (Forall2_lookup_l _ _ _ _ _ Hkept Hj) as (y & _ & (t & b & Hl & _)).
        by eapply lookup_lt_Some.
      * apply Forall2_app.
        -- eapply Forall2_impl; [exact Hkept|]. intros. by apply inserted_by_snoc.
        -- repeat constructor. exists text, mid. split_and!.
           ++ by rewrite list_lookup_middle.
           ++ by rewrite take_app_length.
           ++ done.
    + intros Hrm. apply remove_entry_returns in Hrm as (i & Hi & ->).
      cbn [ShoppingList.entries].
      apply list_index_addressed in Hi.
      rewrite (Forall2_length _ _ _ Hkept), <- Hi.
      split; [by apply StronglySorted_lt_delete|].
      apply Forall2_delete_both.
      eapply Forall2_impl; [exact Hkept|]. intros. by apply inserted_by_snoc.
Qed.

Lemma inserted_by_entry_of (cs : list ShoppingList.call) (i : nat) (entry : string) :
  inserted_by cs i entry -> entry = entry_of cs i.
Proof.
  intros (text & before & Hi & Hrun & ->).
  destruct (script_invariant_run _ _ Hrun) as (Hcount & _).
  unfold entry_of. rewrite Hi, <- Hcount. reflexivity.
Qed.

Lemma join_newline_joined (lines : list string) :
  join newline lines = newline_joined lines.
Proof.
  induction lines as [|line [|line' rest] IH]; [done..|].
  change (join newline (line :: line' :: rest))
    with (line +:+ newline +:+ join newline (line' :: rest)).
  by rewrite IH.
Qed.

(** C6: after any script of [add_entry] and [remove_entry] calls that all
    succeed on a fresh list, [count] is the number of additions minus the
    number of removals and is the number of stored entries.  The entries
    left are those of the additions that [surviving] names (every addition
    but the ones a removal addressed), in the order of these additions, each
    as its addition inserted it; and [__str__] is these entries joined by
    newlines. *)
Theorem count_and_insertion_order (cs : list ShoppingList.call) (self : ShoppingList.t) :
  ShoppingList.run cs ShoppingList.__init__ = (Return tt, self) ->
  ShoppingList.count self
    = Z.of_nat (ShoppingList.additions cs) - Z.of_nat (ShoppingList.removals cs) /\
  ShoppingList.count self = Z.of_nat (length (ShoppingList.entries self)) /\
  StronglySorted lt (surviving cs) /\
  Forall2 (inserted_by cs) (surviving cs) (ShoppingList.entries self) /\
  ShoppingList.entries self = map (entry_of cs) (surviving cs) /\
  ShoppingList.__str__ self = newline_joined (map (entry_of cs) (surviving cs)).
Proof.
  intros Hrun.
  destruct (script_invariant_run cs self Hrun) as (Hcount & Hlen & _).
  destruct (surviving_run cs self Hrun) as (Hsorted & Hkept).
  assert (ShoppingList.entries self = map (entry_of cs) (surviving cs)) as Hentries.
  { clear -Hkept. induction Hkept as [|i entry kept entries Hi _ IH]; [done|].
    cbn. by rewrite IH, (inserted_by_entry_of _ _ _ Hi). }
  split_and!; [done..|].
  unfold ShoppingList.__str__. by rewrite join_newline_joined, Hentries.
Qed.

(** *** Specifications and the filter *)

Import ocp.

Lemma and_specification_satisfied (args : list Specification) (X : Product) :
  satisfied (AndSpecification args) X = forallb (fun spec => satisfied spec X) args.
Proof.
  unfold satisfied. cbn. unfold all.
  induction args as [|spec args IH]; cbn; [done|]. by rewrite IH.
Qed.

Example conjunction_of_nothing :
  is_satisfied (AndSpecification []) apple = PyBool true.
Proof. reflexivity. Qed.

Example base_specification_is_never_satisfied :
  is_satisfied BaseSpecification apple = PyNone /\
  satisfied (__and__ BaseSpecification large) tree = false.
Proof. split; reflexivity. Qed.

(** C2: a conjunction is satisfied by [X] exactly when each child is; so a
    conjunction of no child is satisfied by every item, and a conjunction of
    [A] and [B] exactly when both are. *)
Theorem and_specification_iff_every_child
    (args : list Specification) (A B : Specification) (X : Product) :
  (satisfied (AndSpecification args) X = true <->
     Forall (fun spec => satisfied spec X = true) args) /\
  satisfied (AndSpecification []) X = true /\
  (satisfied (AndSpecification [A; B]) X = true <->
     satisfied A X = true /\ satisfied B X = true).
Proof.
  rewrite !and_specification_satisfied. split_and!.
  - rewrite forallb_forall, Forall_forall.
    split; intros H spec Hin; apply H; by apply list_elem_of_In.
  - reflexivity.
  - cbn. rewrite !andb_true_iff. tauto.
Qed.

Lemma and_operator_satisfied (A B : Specification) (X : Product) :
  satisfied (__and__ A B) X = satisfied A X && satisfied B X.
Proof.
  unfold __and__. rewrite and_specification_satisfied. cbn. by rewrite andb_true_r.
Qed.

(** C8: the two nestings of [&] are satisfied by the same items, namely
    those that satisfy each of the three leaves. *)
Theorem and_operator_is_associative (A B C : Specification) (X : Product) :
  let leaves := satisfied A X = true /\ satisfied B X = true /\ satisfied C X = true in
  (satisfied (__and__ (__and__ A B) C) X = true <->
     satisfied (__and__ A (__and__ B C)) X = true) /\
  (satisfied (__and__ (__and__ A B) C) X = true <-> leaves) /\
  (satisfied (__and__ A (__and__ B C)) X = true <-> leaves).
Proof.
  cbn zeta. rewrite !and_operator_satisfied, !andb_true_iff. tauto.
Qed.

(** What the consumer gets from the first [next]: the items that fail the
    test are skipped, the first that passes is yielded, and the rest of the
    input is still to be examined. *)
Lemma filter_next (skipped rest : list Product) (item : Product) (spec : Specification) :
  forallb (fun i => negb (satisfied spec i)) skipped = true ->
  satisfied spec item = true ->
  next (BetterFilter.filter (skipped ++ item :: rest) spec) =
  Some (item, BetterFilter.filter rest spec).
Proof.
  intros Hskip Hitem. induction skipped as [|i skipped IH]; cbn in *.
  - unfold satisfied in Hitem. by rewrite Hitem.
  - apply andb_true_iff in Hskip as [Hi Hskip]. unfold satisfied in Hi.
    apply negb_true_iff in Hi. rewrite Hi. by apply IH.
Qed.

Lemma filter_to_list (items : list Product) (spec : Specification) :
  to_list (BetterFilter.filter items spec) = List.filter (satisfied spec) items.
Proof.
  induction items as [|item items IH]; cbn; [done|].
  unfold satisfied at 1. destruct (truthy (is_satisfied spec item)); cbn; by rewrite IH.
Qed.

Lemma list_filter_sublist {A} (f : A -> bool) (l : list A) :
  List.filter f l `sublist_of` l.
Proof.
  induction l as [|x l IH]; cbn; [constructor|].
  destruct (f x); by constructor.
Qed.

(** C1: the items [filter] yields are the items of the input that satisfy
    the specification, each as often as it occurs, in the order of the
    input, and nothing else. *)
Theorem filter_yields_the_satisfying_items (items : list Product) (spec : Specification) :
  let yielded := to_list (BetterFilter.filter items spec) in
  yielded = List.filter (satisfied spec) items /\
  yielded `sublist_of` items /\
  (forall item, item ∈ yielded <-> item ∈ items /\ satisfied spec item = true).
Proof.
  cbn zeta. rewrite filter_to_list. split_and!.
  - reflexivity.
  - apply list_filter_sublist.
  - intros item. rewrite !list_elem_of_In. apply filter_In.
Qed.

Example filter_large_blue :
  to_list (BetterFilter.filter products large_blue) = [house].
Proof. reflexivity. Qed.

(** *** Persistence *)

Lemma save_to_file_open_error (journal : ShoppingList.t) (filename : string)
    (w : io.world) (e : exception) :
  io.open_error w filename = Some e ->
  PersistenceManager.save_to_file journal filename w = (Raise e, w).
Proof.
  intros Hopen. unfold PersistenceManager.save_to_file, py_bind, io.open_w.
  by rewrite Hopen.
Qed.

(** When the write succeeds the handle is closed again and the destination
    holds the rendered list. *)
Lemma save_to_file_success (journal : ShoppingList.t) (filename : string) (w : io.world) :
  io.open_error w filename = None ->
  io.write_error w (ShoppingList.__str__ journal) = None ->
  exists w',
    PersistenceManager.save_to_file journal filename w = (Return tt, w') /\
    io.is_open w' (io.next_handle w) = false /\
    io.files w' !! filename = Some (ShoppingList.__str__ journal).
Proof.
  intros Hopen Hwrite.
  unfold PersistenceManager.save_to_file, py_bind, io.open_w, io.write, io.close.
  rewrite Hopen. cbn. rewrite lookup_insert_eq, Hwrite. cbn.
  eexists. split; [reflexivity|]. cbn. split.
  - apply bool_decide_eq_false. cbn.
    rewrite lookup_delete_eq. by intros [? ?].
  - by rewrite !lookup_insert_eq.
Qed.

(** When the write raises, the method is left at once: the handle it opened
    is still open in the world it leaves behind. *)
Lemma save_to_file_write_error (journal : ShoppingList.t) (filename : string)
    (w : io.world) (e : exception) :
  io.open_error w filename = None ->
  io.write_error w (ShoppingList.__str__ journal) = Some e ->
  exists w',
    PersistenceManager.save_to_file journal filename w = (Raise e, w') /\
    io.open_files w' !! io.next_handle w = Some filename.
Proof.
  intros Hopen Hwrite.
  unfold PersistenceManager.save_to_file, py_bind, io.open_w, io.write, io.close.
  rewrite Hopen. cbn. rewrite lookup_insert_eq, Hwrite.
  eexists. split; [reflexivity|]. cbn. by rewrite lookup_insert_eq.
Qed.

(** C3 (the code departs from it): saving a list whose text the destination
    cannot encode raises in [write], and [save_to_file] returns with the
    handle it opened, handle 0, still open: [close] was not reached. *)
Theorem save_to_file_leaves_handle_open_when_write_fails :
  let filename := "/tmp/shopping-list.txt" in
  let result := PersistenceManager.save_to_file cafe_list filename ascii_world in
  io.is_open ascii_world 0%nat = false /\
  fst result = Raise UnicodeEncodeError /\
  io.is_open (snd result) 0%nat = true /\
  io.open_files (snd result) !! 0%nat = Some filename.
Proof. cbn zeta. split_and!; vm_compute; reflexivity. Qed.

(** The same save succeeds, and closes the handle, for the list of the
    main block. *)
Example save_to_file_main_block :
  let result :=
    PersistenceManager.save_to_file shopping_list "/tmp/shopping-list.txt" ascii_world in
  fst result = Return tt /\ io.is_open (snd result) 0%nat = false.
Proof. cbn zeta. split; vm_compute; reflexivity. Qed.

(** *** Capability interfaces *)

Import isp.

Lemma mro_starts_with_class (c : class) : head (mro c) = Some c.
Proof. by destruct c. Qed.

Lemma mro_keeps_bases_order (c b : class) :
  b ∈ bases c -> mro b `sublist_of` mro c.
Proof.
  intros Hb.
  destruct c; cbn in Hb; set_unfold in Hb; destruct_or?; try done; subst b;
    cbn; repeat first [ apply sublist_skip | apply sublist_cons | apply sublist_nil ].
Qed.

Lemma implemented_capability_is_found (c : class) (cap : capability) :
  implements c cap = true -> is_Some (lookup_method c (operation cap)).
Proof.
  destruct c, cap; vm_compute; intros H; try discriminate H; eauto.
Qed.

(** C4 (as the code has it): a device class of the segregated design that
    does not inherit the interface of a capability has no method for it, on
    the class, on its bases or on the instance, so that a call runs no body,
    neither a no-op nor one that raises [NotImplementedError]: attribute
    lookup itself raises [AttributeError] when the call is attempted, and
    nothing is printed. *)
Theorem unimplemented_capability_has_no_method
    (self : instance) (cap : capability) (document : string) (out : stdout) :
  class_of self ∈ segregated_devices ->
  implements (class_of self) cap = false ->
  lookup_method (class_of self) (operation cap) = None /\
  instance_attr self (operation cap) = None /\
  call self (operation cap) document out = (Raise AttributeError, out).
Proof.
  intros Hdev Himpl. unfold segregated_devices in Hdev.
  destruct self as [c|printer scanner]; cbn [class_of] in *.
  - destruct c; set_unfold in Hdev; destruct_or?; try done;
      destruct cap; vm_compute in Himpl; try discriminate Himpl;
      split_and!; reflexivity.
  - destruct cap; vm_compute in Himpl; try discriminate Himpl.
    split_and!; reflexivity.
Qed.

(** C4 as stated does not hold: the call can be written, and it fails when
    it runs. *)
Lemma my_printer_scan_raises_at_run_time :
  ~ raises_nothing (New MyPrinter) (operation scanning).
Proof.
  intros H. by apply (H "123" [] AttributeError).
Qed.

(** *** Relationships *)

Import dip.

Section relationships.

Implicit Types (h : heap) (self l : ref) (es : list edge) (P C : Person).

Lemma getattr_reads h self attr o h' :
  Relationships.getattr self attr h = (o, h') -> h' = h.
Proof.
  unfold Relationships.getattr. intros H.
  repeat case_match; by inversion H.
Qed.

(** What [self.relations] resolves to depends on the instance and on the
    class namespace only. *)
Lemma getattr_frame h h' self attr :
  objects h' !! self = objects h !! self ->
  class_attrs h' = class_attrs h ->
  fst (Relationships.getattr self attr h') = fst (Relationships.getattr self attr h).
Proof.
  intros Hobj Hcls. unfold Relationships.getattr. rewrite Hobj, Hcls.
  by repeat case_match.
Qed.

Lemma relations_resolved h self es :
  Relationships.relations self h = Some es ->
  exists l, Relationships.getattr self "relations" h = (Return l, h) /\
            objects h !! l = Some (ListObject es) /\ l <> self.
Proof.
  unfold Relationships.relations.
  destruct (Relationships.getattr self "relations" h) as [[l|e] h'] eqn:Hget;
    [|discriminate].
  pose proof (getattr_reads _ _ _ _ _ Hget) as ->.
  destruct (objects h !! l) as [[items|attrs]|] eqn:Hl; try discriminate.
  intros [= ->]. exists l. split_and!; [done..|].
  intros ->. unfold Relationships.getattr in Hget. rewrite Hl in Hget. discriminate.
Qed.

Lemma add_parent_and_child_spec h self l es P C :
  Relationships.getattr self "relations" h = (Return l, h) ->
  objects h !! l = Some (ListObject es) ->
  l <> self ->
  Relationships.add_parent_and_child self P C h =
  (Return tt,
   {| objects := <[l := ListObject (es ++ link P C)]> (objects h);
      class_attrs := class_attrs h |}).
Proof.
  intros Hget Hl Hne.
  unfold Relationships.add_parent_and_child, py_bind. rewrite Hget.
  unfold Relationships.append at 1. rewrite Hl.
  set (h1 := {| objects := _; class_attrs := _ |}).
  assert (Relationships.getattr self "relations" h1 = (Return l, h1)) as ->.
  { pose proof (getattr_frame h h1 self "relations") as Hfr.
    destruct (Relationships.getattr self "relations" h1) as [o h1'] eqn:Hget1.
    pose proof (getattr_reads _ _ _ _ _ Hget1) as ->.
    rewrite Hget in Hfr. cbn in Hfr. rewrite Hfr; [done| |done].
    subst h1. cbn. by rewrite lookup_insert_ne. }
  unfold Relationships.append. subst h1. cbn. rewrite lookup_insert_eq.
  rewrite insert_insert_eq, <- app_assoc. reflexivity.
Qed.

(** One run of the loop, against the names the query is to produce. *)
Lemma loop_spec name0 (rest : list edge) (pos : nat) :
  match Relationships.loop name0 rest pos with
  | None => children_in name0 rest = []
  | Some (child, pos') =>
      exists k, pos' = (pos + S k)%nat /\ (k < length rest)%nat /\
                children_in name0 rest = child :: children_in name0 (drop (S k) rest)
  end.
Proof.
  revert pos. induction rest as [|r rest IH]; intros pos; cbn; [done|].
  unfold children_in. cbn.
  destruct (Relationships.is_parent_named name0 r) eqn:Hr.
  - exists O. split_and!; [lia | lia | done].
  - specialize (IH (S pos)).
    destruct (Relationships.loop name0 rest (S pos)) as [[child pos']|]; [|done].
    destruct IH as (k & -> & Hk & IH). exists (S k). split_and!; [lia | lia | done].
Qed.

Lemma consume_suspended h l es name0 (fuel pos : nat) :
  objects h !! l = Some (ListObject es) ->
  (length es - pos < fuel)%nat ->
  Relationships.consume fuel (Relationships.Suspended l pos name0) h =
  Some (Return (children_in name0 (drop pos es))).
Proof.
  intros Hl. revert pos. induction fuel as [|fuel IH]; intros pos Hfuel; [lia|].
  cbn. unfold Relationships.resume. rewrite Hl.
  pose proof (loop_spec name0 (drop pos es) pos) as Hloop.
  destruct (Relationships.loop name0 (drop pos es) pos) as [[child pos']|].
  - destruct Hloop as (k & -> & Hk & ->). rewrite length_drop in Hk.
    rewrite IH by lia. rewrite drop_drop. by rewrite (Nat.add_comm pos).
  - by rewrite Hloop.
Qed.

(** Consuming the generator of a query gives the names the query is to
    produce from the store as it is. *)
Lemma find_all_children_of_spec h self es name0 :
  Relationships.relations self h = Some es ->
  Relationships.to_list (Relationships.find_all_children_of self name0) h =
  Some (Return (children_in name0 es)).
Proof.
  intros Hrel. destruct (relations_resolved _ _ _ Hrel) as (l & Hget & Hl & _).
  unfold Relationships.to_list, Relationships.find_all_children_of.
  unfold Relationships.items_left. rewrite Hget, Hl. cbn.
  unfold py_bind. rewrite Hget. unfold Relationships.resume. rewrite Hl.
  pose proof (loop_spec name0 es 0) as Hloop. rewrite drop_0.
  destruct (Relationships.loop name0 es 0) as [[child pos']|].
  - destruct Hloop as (k & -> & Hk & ->).
    by rewrite (consume_suspended h l es) by (done || lia).
  - by rewrite Hloop.
Qed.

Lemma add_parent_and_child_relations h self es P C :
  Relationships.relations self h = Some es ->
  exists h',
    Relationships.add_parent_and_child self P C h = (Return tt, h') /\
    Relationships.relations self h' = Some (es ++ link P C) /\
    class_attrs h' = class_attrs h /\
    (forall r, is_Some (objects h !! r) <-> is_Some (objects h' !! r)) /\
    (forall r attrs, objects h !! r = Some (InstanceObject attrs) ->
                     objects h' !! r = Some (InstanceObject attrs)).
Proof.
  intros Hrel. destruct (relations_resolved _ _ _ Hrel) as (l & Hget & Hl & Hne).
  eexists. split; [by eapply add_parent_and_child_spec|].
  set (h' := {| objects := _; class_attrs := _ |}). split_and!.
  - unfold Relationships.relations.
    pose proof (getattr_frame h h' self "relations") as Hfr.
    destruct (Relationships.getattr self "relations" h') as [o h''] eqn:Hget'.
    rewrite Hget in Hfr. cbn in Hfr. rewrite Hfr; [| |done].
    + subst h'. cbn. by rewrite lookup_insert_eq.
    + subst h'. cbn. by rewrite lookup_insert_ne.
  - done.
  - intros r. subst h'. cbn. destruct (decide (l = r)) as [<-|Hr].
    + rewrite lookup_insert_eq, Hl. split; eauto.
    + by rewrite lookup_insert_ne.
  - intros r attrs Hr. subst h'. cbn. rewrite lookup_insert_ne; [done|].
    intros <-. congruence.
Qed.

(** The two appends go together: a link that raises has appended
    nothing. *)
Lemma add_parent_and_child_all_or_nothing h self P C e h' :
  Relationships.add_parent_and_child self P C h = (Raise e, h') -> h' = h.
Proof.
  unfold Relationships.add_parent_and_child, py_bind at 1.
  destruct (Relationships.getattr self "relations" h) as [[l|e0] h0] eqn:Hget;
    pose proof (getattr_reads _ _ _ _ _ Hget) as ->; [|by intros [= _ <-]].
  destruct (objects h !! l) as [[es|attrs]|] eqn:Hl.
  - assert (l <> self) as Hne.
    { intros ->. unfold Relationships.getattr in Hget. by rewrite Hl in Hget. }
    pose proof (add_parent_and_child_spec h self l es P C Hget Hl Hne) as Hadd.
    unfold Relationships.add_parent_and_child, py_bind at 1 in Hadd.
    rewrite Hget in Hadd. rewrite Hadd. discriminate.
  - unfold py_bind, Relationships.append. rewrite Hl. by intros [= _ <-].
  - unfold py_bind, Relationships.append. rewrite Hl. by intros [= _ <-].
Qed.

Lemma children_in_app name0 es es' :
  children_in name0 (es ++ es') = children_in name0 es ++ children_in name0 es'.
Proof. unfold children_in. by rewrite List.filter_app, map_app. Qed.

Lemma children_in_absent name0 es :
  (forall r, r ∈ es -> ~ appears_in name0 r) -> children_in name0 es = [].
Proof.
  intros Habs. unfold children_in.
  induction es as [|r es IH]; cbn; [done|].
  destruct (Relationships.is_parent_named name0 r) eqn:Hr.
  - exfalso. apply (Habs r); [by left|]. left.
    unfold Relationships.is_parent_named in Hr.
    apply andb_true_iff in Hr as [Hr _]. by apply bool_decide_eq_true in Hr.
  - apply IH. intros r' Hr'. apply Habs. by right.
Qed.

Lemma is_parent_named_subject P C :
  Relationships.is_parent_named (name P) (P, PARENT, C) = true.
Proof.
  unfold Relationships.is_parent_named. cbn.
  apply andb_true_iff; split; by apply bool_decide_eq_true.
Qed.

Lemma children_in_link_parent P C : name C ∈ children_in (name P) (link P C).
Proof.
  unfold children_in, link. cbn [List.filter].
  rewrite is_parent_named_subject. cbn. left.
Qed.

Lemma children_in_link_child P C : name P ∈ children_in (name C) (link P C).
Proof.
  unfold children_in, link. cbn [List.filter].
  rewrite is_parent_named_subject.
  destruct (Relationships.is_parent_named (name C) (P, PARENT, C)); cbn.
  - right. left.
  - left.
Qed.

End relationships.

(** C5: linking a parent and a child appends the two edges, one in each
    direction, together, to whatever the store held; a query for the
    parent's name then yields the child's name, and a query for a name that
    is neither subject nor object of any edge of the store yields nothing. *)
Theorem link_then_query_children
    (h : heap) (self : ref) (es : list edge) (P C : Person) :
  Relationships.relations self h = Some es ->
  exists h',
    Relationships.add_parent_and_child self P C h = (Return tt, h') /\
    Relationships.relations self h' = Some (es ++ [(P, PARENT, C); (C, PARENT, P)]) /\
    (exists children,
       Relationships.to_list (Relationships.find_all_children_of self (name P)) h'
         = Some (Return children) /\
       name C ∈ children) /\
    (forall name0,
       (forall r, r ∈ es ++ [(P, PARENT, C); (C, PARENT, P)] -> ~ appears_in name0 r) ->
       Relationships.to_list (Relationships.find_all_children_of self name0) h'
         = Some (Return [])).
Proof.
  intros Hrel.
  destruct (add_parent_and_child_relations h self es P C Hrel)
    as (h' & Hadd & Hrel' & _).
  exists h'. split_and!; [done..| |].
  - eexists. split; [by apply find_all_children_of_spec|].
    rewrite children_in_app. apply elem_of_app. right.
    apply children_in_link_parent.
  - intros name0 Habs. rewrite (find_all_children_of_spec _ _ _ _ Hrel').
    by rewrite children_in_absent.
Qed.

(** C9: after the link, a query for the child's name yields the parent's
    name, since the edge from the child to the parent is stored with the
    kind [PARENT]. *)
Theorem child_query_yields_parent
    (h : heap) (self : ref) (es : list edge) (P C : Person) :
  Relationships.relations self h = Some es ->
  exists h' es' children,
    Relationships.add_parent_and_child self P C h = (Return tt, h') /\
    Relationships.relations self h' = Some es' /\
    (C, PARENT, P) ∈ es' /\
    Relationships.to_list (Relationships.find_all_children_of self (name C)) h'
      = Some (Return children) /\
    name P ∈ children.
Proof.
  intros Hrel.
  destruct (add_parent_and_child_relations h self es P C Hrel)
    as (h' & Hadd & Hrel' & _).
  exists h', (es ++ link P C), (children_in (name C) (es ++ link P C)).
  split_and!; [done | done | | by apply find_all_children_of_spec |].
  - apply elem_of_app. right. unfold link. set_solver.
  - rewrite children_in_app. apply elem_of_app. right.
    apply children_in_link_child.
Qed.

(** Lookups in a heap written as a chain of updates. *)
Ltac heap_lookup :=
  cbn; repeat first [rewrite lookup_insert_eq | rewrite lookup_insert_ne by done];
  done.

Section shared_store.

Implicit Types (h : heap) (self l : ref) (es : list edge).

Lemma new_spec h :
  let r := fresh (dom (objects h)) in
  Relationships.new h =
  (Return r,
   {| objects := <[r := InstanceObject ∅]> (objects h);
      class_attrs := class_attrs h |}) /\
  objects h !! r = None.
Proof.
  cbn zeta. split; [reflexivity|]. apply not_elem_of_dom, is_fresh.
Qed.

(** An instance without a [relations] attribute of its own sees the list
    bound in the class namespace. *)
Lemma relations_of_plain_instance h self l es :
  objects h !! self = Some (InstanceObject ∅) ->
  class_attrs h !! "relations" = Some l ->
  objects h !! l = Some (ListObject es) ->
  Relationships.getattr self "relations" h = (Return l, h) /\
  Relationships.relations self h = Some es.
Proof.
  intros Hself Hcls Hl.
  assert (Relationships.getattr self "relations" h = (Return l, h)) as Hget.
  { unfold Relationships.getattr. by rewrite Hself, lookup_empty, Hcls. }
  split; [done|]. unfold Relationships.relations. by rewrite Hget, Hl.
Qed.

End shared_store.

(** C10: the list of edges is bound once, in the class namespace, and every
    instance reaches it through the class.  With [r1] and [r2] two
    instances, a link made through [r1] is seen by a query through [r2];
    and an instance constructed after the link does not start from an empty
    store: it sees the edges already there. *)
Theorem relations_store_is_shared
    (h0 : heap) (l : ref) (es : list edge) (P C : Person) :
  class_attrs h0 !! "relations" = Some l ->
  objects h0 !! l = Some (ListObject es) ->
  exists r1 h1 r2 h2 h3 r3 h4,
    Relationships.new h0 = (Return r1, h1) /\
    Relationships.new h1 = (Return r2, h2) /\
    r1 <> r2 /\
    Relationships.add_parent_and_child r1 P C h2 = (Return tt, h3) /\
    Relationships.relations r2 h3 = Some (es ++ [(P, PARENT, C); (C, PARENT, P)]) /\
    (exists children,
       Relationships.to_list (Relationships.find_all_children_of r2 (name P)) h3
         = Some (Return children) /\
       name C ∈ children) /\
    Relationships.new h3 = (Return r3, h4) /\
    r3 <> r1 /\ r3 <> r2 /\
    Relationships.relations r3 h4 = Some (es ++ [(P, PARENT, C); (C, PARENT, P)]) /\
    Relationships.relations r3 h4 <> Some [].
Proof.
  intros Hcls Hl.
  destruct (new_spec h0) as [Hnew1 Hr1]. cbn zeta in *.
  set (r1 := fresh (dom (objects h0))) in *.
  set (h1 := {| objects := <[r1 := InstanceObject ∅]> (objects h0);
                class_attrs := class_attrs h0 |}) in *.
  destruct (new_spec h1) as [Hnew2 Hr2]. cbn zeta in *.
  set (r2 := fresh (dom (objects h1))) in *.
  set (h2 := {| objects := <[r2 := InstanceObject ∅]> (objects h1);
                class_attrs := class_attrs h1 |}) in *.
  assert (r1 <> r2) as H12.
  { intros Heq. rewrite <- Heq in Hr2. subst h1. cbn in Hr2.
    by rewrite lookup_insert_eq in Hr2. }
  assert (l <> r1) as Hl1 by congruence.
  assert (l <> r2) as Hl2.
  { intros ->. subst h1. cbn in Hr2. rewrite lookup_insert_ne in Hr2 by done.
    congruence. }
  assert (objects h2 !! l = Some (ListObject es)) as Hl_h2
    by (subst h2 h1; heap_lookup).
  destruct (relations_of_plain_instance h2 r1 l es) as [Hget1 Hrel1];
    [subst h2 h1; heap_lookup | done | done |].
  pose proof (add_parent_and_child_spec h2 r1 l es P C Hget1) as Hadd.
  specialize (Hadd Hl_h2 Hl1).
  set (h3 := {| objects := <[l := ListObject (es ++ link P C)]> (objects h2);
                class_attrs := class_attrs h2 |}) in *.
  destruct (relations_of_plain_instance h3 r2 l (es ++ link P C)) as [Hget2 Hrel2];
    [subst h3 h2; heap_lookup | done | subst h3; heap_lookup |].
  destruct (new_spec h3) as [Hnew3 Hr3]. cbn zeta in *.
  set (r3 := fresh (dom (objects h3))) in *.
  set (h4 := {| objects := <[r3 := InstanceObject ∅]> (objects h3);
                class_attrs := class_attrs h3 |}) in *.
  assert (r3 <> l) as H3l.
  { intros Heq. rewrite Heq in Hr3. subst h3. cbn in Hr3.
    by rewrite lookup_insert_eq in Hr3. }
  assert (r3 <> r2) as H32.
  { intros Heq. rewrite Heq in Hr3. subst h3 h2. cbn in Hr3.
    rewrite lookup_insert_ne in Hr3 by done. by rewrite lookup_insert_eq in Hr3. }
  assert (r3 <> r1) as H31.
  { intros Heq. rewrite Heq in Hr3. subst h3 h2 h1. cbn in Hr3.
    rewrite !lookup_insert_ne in Hr3 by done. by rewrite lookup_insert_eq in Hr3. }
  destruct (relations_of_plain_instance h4 r3 l (es ++ link P C)) as [Hget3 Hrel3];
    [subst h4; heap_lookup | done | subst h4 h3; heap_lookup |].
  exists r1, h1, r2, h2, h3, r3, h4.
  split_and!; try done.
  - eexists. split; [by apply find_all_children_of_spec|].
    rewrite children_in_app. apply elem_of_app. right. apply children_in_link_parent.
  - rewrite Hrel3. unfold link. intros [= Heq]. by destruct es.
Qed.

(** *** The properties at the inputs of the scripts *)

Lemma count_and_insertion_order_witness :
  let cs := [ShoppingList.AddEntry "bread"; ShoppingList.AddEntry "phone";
             ShoppingList.AddEntry "milk"; ShoppingList.RemoveEntry (-2)] in
  let self := {| ShoppingList.entries := ["0: bread"; "2: milk"];
                 ShoppingList.count := 2 |} in
  ShoppingList.run cs ShoppingList.__init__ = (Return tt, self) /\
  ShoppingList.count self
    = Z.of_nat (ShoppingList.additions cs) - Z.of_nat (ShoppingList.removals cs) /\
  ShoppingList.count self = Z.of_nat (length (ShoppingList.entries self)) /\
  StronglySorted lt (surviving cs) /\
  Forall2 (inserted_by cs) (surviving cs) (ShoppingList.entries self) /\
  ShoppingList.entries self = map (entry_of cs) (surviving cs) /\
  ShoppingList.__str__ self = newline_joined (map (entry_of cs) (surviving cs)).
Proof.
  cbn zeta. split; [reflexivity|].
  apply count_and_insertion_order. reflexivity.
Defined.

Lemma unimplemented_capability_has_no_method_witness :
  class_of (New MyPrinter) ∈ segregated_devices /\
  implements (class_of (New MyPrinter)) scanning = false /\
  lookup_method (class_of (New MyPrinter)) (operation scanning) = None /\
  instance_attr (New MyPrinter) (operation scanning) = None /\
  call (New MyPrinter) (operation scanning) "123" [] = (Raise AttributeError, []).
Proof.
  assert (class_of (New MyPrinter) ∈ segregated_devices) as Hdev
    by (apply (bool_decide_unpack _); reflexivity).
  assert (implements (class_of (New MyPrinter)) scanning = false) as Himpl
    by reflexivity.
  split; [exact Hdev|]. split; [exact Himpl|].
  exact (unimplemented_capability_has_no_method
           (New MyPrinter) scanning "123" [] Hdev Himpl).
Defined.

Lemma link_then_query_children_witness :
  Relationships.relations relationships main_heap = Some [] /\
  exists h',
    Relationships.add_parent_and_child relationships parent child1 main_heap
      = (Return tt, h') /\
    Relationships.relations relationships h'
      = Some ([] ++ [(parent, PARENT, child1); (child1, PARENT, parent)]) /\
    (exists children,
       Relationships.to_list
         (Relationships.find_all_children_of relationships (name parent)) h'
         = Some (Return children) /\
       name child1 ∈ children) /\
    (forall name0,
       (forall r, r ∈ [] ++ [(parent, PARENT, child1); (child1, PARENT, parent)] ->
                  ~ appears_in name0 r) ->
       Relationships.to_list
         (Relationships.find_all_children_of relationships name0) h'
         = Some (Return [])).
Proof.
  split; [reflexivity|].
  apply link_then_query_children. reflexivity.
Defined.

Lemma child_query_yields_parent_witness :
  Relationships.relations relationships main_heap = Some [] /\
  exists h' es' children,
    Relationships.add_parent_and_child relationships parent child1 main_heap
      = (Return tt, h') /\
    Relationships.relations relationships h' = Some es' /\
    (child1, PARENT, parent) ∈ es' /\
    Relationships.to_list
      (Relationships.find_all_children_of relationships (name child1)) h'
      = Some (Return children) /\
    name parent ∈ children.
Proof.
  split; [reflexivity|].
  apply (child_query_yields_parent main_heap relationships []). reflexivity.
Defined.

Lemma relations_store_is_shared_witness :
  class_attrs imported !! "relations" = Some 0%nat /\
  objects imported !! 0%nat = Some (ListObject []) /\
  exists r1 h1 r2 h2 h3 r3 h4,
    Relationships.new imported = (Return r1, h1) /\
    Relationships.new h1 = (Return r2, h2) /\
    r1 <> r2 /\
    Relationships.add_parent_and_child r1 parent child1 h2 = (Return tt, h3) /\
    Relationships.relations r2 h3
      = Some ([] ++ [(parent, PARENT, child1); (child1, PARENT, parent)]) /\
    (exists children,
       Relationships.to_list
         (Relationships.find_all_children_of r2 (name parent)) h3
         = Some (Return children) /\
       name child1 ∈ children) /\
    Relationships.new h3 = (Return r3, h4) /\
    r3 <> r1 /\ r3 <> r2 /\
    Relationships.relations r3 h4
      = Some ([] ++ [(parent, PARENT, child1); (child1, PARENT, parent)]) /\
    Relationships.relations r3 h4 <> Some [].
Proof.
  split; [reflexivity|]. split; [reflexivity|].
  apply (relations_store_is_shared imported 0%nat [] parent child1); reflexivity.
Defined.

(** The main block of [dip.py]: both children of John are found, also
    through an instance made after the links. *)
Example research_finds_both_children :
  let script : py heap (option (outcome (list string))) :=
    class_Relationships ;;;
    let! relationships := Relationships.new in
    Relationships.add_parent_and_child relationships parent child1 ;;;
    Relationships.add_parent_and_child relationships parent child2 ;;;
    let! other := Relationships.new in
    fun h => (Return (Research other h), h) in
  fst (script empty_heap) =
  Return (Some (Return ["John has a child called Chris";
                        "John has a child called Matt"])).
Proof. vm_compute. reflexivity. Qed.

(** * Further properties of the scripts *)

(** ** srp.py *)

(** The separated design behaves as the class it replaces: adding and
    removing entries act alike on lists with the same attributes, with the
    same outcome, and [save] does to the file system what [save_to_file]
    does. *)
Theorem separated_design_preserves_behaviour
    (self : ShoppingListWrong.t) (text : string) (pos : Z)
    (filename : string) (w : io.world) :
  (let r := ShoppingListWrong.add_entry text self in
   ShoppingList.add_entry text (ShoppingListWrong.separated self)
   = (fst r, ShoppingListWrong.separated (snd r))) /\
  (let r := ShoppingListWrong.remove_entry pos self in
   ShoppingList.remove_entry pos (ShoppingListWrong.separated self)
   = (fst r, ShoppingListWrong.separated (snd r))) /\
  ShoppingList.__str__ (ShoppingListWrong.separated self)
  = ShoppingListWrong.__str__ self /\
  ShoppingListWrong.save self filename w
  = PersistenceManager.save_to_file (ShoppingListWrong.separated self) filename w.
Proof.
  split_and!; try reflexivity.
  cbn zeta.
  unfold ShoppingListWrong.remove_entry, ShoppingList.remove_entry,
    py_bind, py_lift, py_get, py_put. cbn.
  by destruct (list_delitem (ShoppingListWrong.entries self) pos).
Qed.

(** Adding an entry and then removing the last one gives the list back,
    entries and count, whatever the list was. *)
Theorem add_then_remove_last (self : ShoppingList.t) (text : string) :
  (ShoppingList.add_entry text ;;; ShoppingList.remove_entry (-1)) self
  = (Return tt, self).
Proof.
  unfold py_bind at 1. rewrite add_entry_spec.
  unfold ShoppingList.remove_entry, py_bind, py_lift, py_get, py_put, list_delitem.
  cbn [ShoppingList.entries ShoppingList.count fst snd].
  assert (list_index
            (ShoppingList.entries self
               ++ [ShoppingList.label (ShoppingList.count self) text]) (-1)
          = Return (length (ShoppingList.entries self))) as ->.
  { unfold list_index. rewrite length_app. cbn [length].
    replace (-1 <? 0) with true by reflexivity.
    destruct (_ || _) eqn:Hout.
    - apply orb_true_iff in Hout as [H|H];
        [apply Z.ltb_lt in H | apply Z.leb_le in H]; lia.
    - f_equal. lia. }
  cbn. rewrite delete_middle, app_nil_r.
  destruct self as [es n]. cbn. do 2 f_equal. lia.
Qed.

(** An in-range removal deletes the one entry at the position, keeping the
    others in order, and lowers the count by one; a negative position [pos]
    removes what [pos + len] removes. *)
Theorem remove_entry_in_range (self : ShoppingList.t) (pos : Z) :
  let len := Z.of_nat (length (ShoppingList.entries self)) in
  - len <= pos < len ->
  let i := Z.to_nat (if pos <? 0 then pos + len else pos) in
  ShoppingList.remove_entry pos self =
  (Return tt,
   {| ShoppingList.entries :=
        take i (ShoppingList.entries self) ++ drop (S i) (ShoppingList.entries self);
      ShoppingList.count := ShoppingList.count self - 1 |}) /\
  (pos < 0 ->
   ShoppingList.remove_entry pos self = ShoppingList.remove_entry (pos + len) self).
Proof.
  cbn zeta. intros Hpos.
  assert (forall p, - Z.of_nat (length (ShoppingList.entries self)) <= p
                    < Z.of_nat (length (ShoppingList.entries self)) ->
            ShoppingList.remove_entry p self =
            (Return tt,
             {| ShoppingList.entries :=
                  delete (Z.to_nat (if p <? 0
                                    then p + Z.of_nat (length (ShoppingList.entries self))
                                    else p))
                    (ShoppingList.entries self);
                ShoppingList.count := ShoppingList.count self - 1 |})) as Hrm.
  { intros p Hp.
    unfold ShoppingList.remove_entry, py_bind, py_lift, py_get, py_put, list_delitem.
    cbn. unfold list_index.
    destruct (p <? 0) eqn:Hneg; destruct (_ || _) eqn:Hout; try reflexivity;
      apply orb_true_iff in Hout as [H|H]; lia. }
  split.
  - rewrite Hrm by done. by rewrite delete_take_drop.
  - intros Hneg. rewrite !Hrm by lia.
    replace (pos <? 0) with true by (symmetry; apply Z.ltb_lt; lia).
    replace (pos + _ <? 0) with false by (symmetry; apply Z.ltb_ge; lia).
    reflexivity.
Qed.

(** The number in front of a new entry is the number of entries stored at
    that moment, not a serial number: on a list reached by a script, adding
    [x], removing an older entry and adding [y] leaves [x] and [y] with the
    same number. *)
Theorem labels_are_reused (cs : list ShoppingList.call) (self : ShoppingList.t)
    (x y : string) (pos : Z) :
  ShoppingList.run cs ShoppingList.__init__ = (Return tt, self) ->
  let len := Z.of_nat (length (ShoppingList.entries self)) in
  0 <= pos < len ->
  ShoppingList.run
    [ShoppingList.AddEntry x; ShoppingList.RemoveEntry pos; ShoppingList.AddEntry y]
    self =
  (Return tt,
   {| ShoppingList.entries :=
        delete (Z.to_nat pos) (ShoppingList.entries self)
          ++ [ShoppingList.label len x; ShoppingList.label len y];
      ShoppingList.count := len + 1 |}).
Proof.
  intros Hrun. cbn zeta. intros Hpos.
  destruct (script_invariant_run cs self Hrun) as (_ & Hcount & _).
  cbn [ShoppingList.run ShoppingList.run_call].
  unfold py_bind at 1. rewrite add_entry_spec.
  unfold py_bind at 1.
  destruct (remove_entry_in_range
              {| ShoppingList.entries :=
                   ShoppingList.entries self
                     ++ [ShoppingList.label (ShoppingList.count self) x];
                 ShoppingList.count := ShoppingList.count self + 1 |} pos)
    as [Hrm _].
  { cbn [ShoppingList.entries]. rewrite length_app. cbn [length]. lia. }
  rewrite Hrm. cbn [ShoppingList.entries ShoppingList.count].
  replace (pos <? 0) with false by (symmetry; apply Z.ltb_ge; lia).
  unfold py_bind at 1. rewrite add_entry_spec. unfold py_ret.
  cbn [ShoppingList.entries ShoppingList.count].
  rewrite <- delete_take_drop.
  assert (Z.to_nat pos < length (ShoppingList.entries self))%nat as Hlt by lia.
  assert (delete (Z.to_nat pos)
            (ShoppingList.entries self
               ++ [ShoppingList.label (ShoppingList.count self) x])
          = delete (Z.to_nat pos) (ShoppingList.entries self)
              ++ [ShoppingList.label (ShoppingList.count self) x]) as ->.
  { rewrite !delete_take_drop, take_app_le by lia.
    rewrite drop_app_le by lia. by rewrite app_assoc. }
  rewrite <- app_assoc. cbn. rewrite Hcount.
  by replace (Z.of_nat (length (ShoppingList.entries self)) + 1 - 1)
    with (Z.of_nat (length (ShoppingList.entries self))) by lia.
Qed.

(** A destination that cannot be opened: the error reaches the caller and
    nothing has changed, no file and no handle. *)
Theorem save_to_file_cannot_open (journal : ShoppingList.t) (filename : string)
    (w : io.world) (e : exception) :
  io.open_error w filename = Some e ->
  PersistenceManager.save_to_file journal filename w = (Raise e, w).
Proof. apply save_to_file_open_error. Qed.


(** ** ocp.py *)

Lemma satisfied_worse (A B : Specification) (X : Product) :
  satisfied (AndSpecificationWorse A B) X = satisfied A X && satisfied B X.
Proof.
  unfold satisfied. cbn. unfold py_and.
  by destruct (truthy (is_satisfied A X)) eqn:HA; [|rewrite HA].
Qed.

Lemma filter_ext (items : list Product) (f : Product -> bool) (spec : Specification) :
  (forall item, satisfied spec item = f item) ->
  to_list (BetterFilter.filter items spec) = List.filter f items.
Proof.
  intros Hf. rewrite filter_to_list. apply List.filter_ext. exact Hf.
Qed.

(** The methods of the old filter yield what the generic filter yields for
    the matching specification: by colour, by size, and by size and colour
    (for the operator [&] and for the two-argument conjunction alike). *)
Theorem product_filter_is_subsumed (products : list Product)
    (color0 : Color) (size0 : Size) :
  to_list (ProductFilter.filter_by_color products color0)
  = to_list (BetterFilter.filter products (ColorSpecification color0)) /\
  to_list (ProductFilter.filter_by_size products size0)
  = to_list (BetterFilter.filter products (SizeSpecification size0)) /\
  to_list (ProductFilter.filter_by_size_and_color products size0 color0)
  = to_list (BetterFilter.filter products
               (__and__ (SizeSpecification size0) (ColorSpecification color0))) /\
  to_list (ProductFilter.filter_by_size_and_color products size0 color0)
  = to_list (BetterFilter.filter products
               (AndSpecificationWorse (SizeSpecification size0)
                  (ColorSpecification color0))).
Proof.
  assert (to_list (ProductFilter.filter_by_size_and_color products size0 color0)
          = List.filter (fun p => bool_decide (color p = color0)
                                  && bool_decide (size p = size0)) products) as Hboth.
  { induction products as [|p products IH]; cbn; [done|].
    destruct (_ && _); cbn; by rewrite IH. }
  split_and!.
  - clear Hboth. induction products as [|p products IH]; cbn; [done|].
    destruct (bool_decide _); cbn; by rewrite IH.
  - clear Hboth. induction products as [|p products IH]; cbn; [done|].
    destruct (bool_decide _); cbn; by rewrite IH.
  - rewrite Hboth. symmetry. apply filter_ext. intros item.
    rewrite and_operator_satisfied. unfold satisfied. cbn. apply andb_comm.
  - rewrite Hboth. symmetry. apply filter_ext. intros item.
    rewrite satisfied_worse. unfold satisfied. cbn. apply andb_comm.
Qed.

(** The two-argument conjunction accepts what [&] accepts, so both give the
    same filter; but what [is_satisfied] hands back differs: [&] always
    gives a [bool], the two-argument conjunction gives back [None] when the
    deciding child does. *)
Theorem worse_conjunction_agrees_with_operator
    (A B : Specification) (X : Product) (items : list Product) :
  satisfied (AndSpecificationWorse A B) X = satisfied (__and__ A B) X /\
  to_list (BetterFilter.filter items (AndSpecificationWorse A B))
  = to_list (BetterFilter.filter items (__and__ A B)) /\
  is_satisfied (__and__ A B) X = PyBool (satisfied (__and__ A B) X) /\
  (is_satisfied (AndSpecificationWorse A B) X = PyNone <->
     is_satisfied A X = PyNone \/
     (satisfied A X = true /\ is_satisfied B X = PyNone)).
Proof.
  split_and!.
  - by rewrite satisfied_worse, and_operator_satisfied.
  - rewrite !filter_to_list. apply List.filter_ext. intros item.
    by rewrite satisfied_worse, and_operator_satisfied.
  - reflexivity.
  - unfold satisfied. cbn. unfold py_and.
    destruct (is_satisfied A X) as [|[]]; cbn;
      destruct (is_satisfied B X) as [|[]]; cbn; split; intros H;
      try done; try (by left); try (by right);
      destruct H as [H|[H1 H2]]; congruence.
Qed.

(** Nesting conjunctions is flattening them: a conjunction of conjunctions
    accepts what the conjunction of all their children accepts. *)
Theorem nested_conjunction_flattens (groups : list (list Specification)) (X : Product) :
  satisfied (AndSpecification (map AndSpecification groups)) X
  = satisfied (AndSpecification (concat groups)) X.
Proof.
  rewrite !and_specification_satisfied.
  induction groups as [|g groups IH]; [done|].
  cbn [map concat forallb].
  rewrite forallb_app, and_specification_satisfied. by rewrite IH.
Qed.

Lemma and_specification_members (args : list Specification) (X : Product) :
  satisfied (AndSpecification args) X = true <->
  forall spec, spec ∈ args -> satisfied spec X = true.
Proof.
  rewrite and_specification_satisfied, forallb_forall.
  split; intros H spec Hin; apply H; by apply list_elem_of_In.
Qed.

(** A conjunction depends on which children it has, not on their order or
    on how often each is given; so [&] is commutative and idempotent in what
    it accepts. *)
Theorem conjunction_ignores_order_and_repetition
    (args args' : list Specification) (A B : Specification) (X : Product) :
  (forall spec, spec ∈ args <-> spec ∈ args') ->
  satisfied (AndSpecification args) X = satisfied (AndSpecification args') X /\
  satisfied (__and__ A B) X = satisfied (__and__ B A) X /\
  satisfied (__and__ A A) X = satisfied A X.
Proof.
  intros Hsame. split_and!.
  - apply eq_true_iff_eq. rewrite !and_specification_members.
    split; intros H spec Hin; apply H; by apply Hsame.
  - rewrite !and_operator_satisfied. apply andb_comm.
  - rewrite and_operator_satisfied. apply andb_diag.
Qed.

(** Filtering by [A & B] is filtering by [A] and then filtering what came
    out by [B]. *)
Theorem filter_by_conjunction_is_two_passes
    (items : list Product) (A B : Specification) :
  to_list (BetterFilter.filter items (__and__ A B))
  = to_list (BetterFilter.filter (to_list (BetterFilter.filter items A)) B).
Proof.
  rewrite !filter_to_list.
  rewrite (List.filter_ext _ (fun i => satisfied A i && satisfied B i))
    by (intros i; apply and_operator_satisfied).
  induction items as [|item items IH]; cbn; [done|].
  destruct (satisfied A item); cbn; [|exact IH].
  destruct (satisfied B item); cbn; by rewrite IH.
Qed.

(** The filter works item by item: an input in two parts gives the two
    results one after the other, no more items come out than went in, and
    filtering a result again by the same specification changes nothing. *)
Theorem filter_is_itemwise (xs ys : list Product) (spec : Specification) :
  to_list (BetterFilter.filter (xs ++ ys) spec)
  = to_list (BetterFilter.filter xs spec) ++ to_list (BetterFilter.filter ys spec) /\
  (length (to_list (BetterFilter.filter xs spec)) <= length xs)%nat /\
  to_list (BetterFilter.filter (to_list (BetterFilter.filter xs spec)) spec)
  = to_list (BetterFilter.filter xs spec).
Proof.
  rewrite !filter_to_list. split_and!.
  - apply List.filter_app.
  - apply List.filter_length_le.
  - induction xs as [|x xs IH]; cbn; [done|].
    destruct (satisfied spec x) eqn:Hx; cbn; [by rewrite Hx, IH | exact IH].
Qed.

(** The generator is lazy: the first [next] skips the items that fail the
    test, stops at the first that passes and leaves the rest unexamined; on
    an input where nothing passes it is exhausted at once. *)
Theorem filter_first_next (skipped rest : list Product) (item : Product)
    (spec : Specification) :
  forallb (fun i => negb (satisfied spec i)) skipped = true ->
  next (BetterFilter.filter skipped spec) = None /\
  (satisfied spec item = true ->
   next (BetterFilter.filter (skipped ++ item :: rest) spec)
   = Some (item, BetterFilter.filter rest spec)).
Proof.
  intros Hskip. split.
  - induction skipped as [|i skipped IH]; cbn in *; [done|].
    apply andb_true_iff in Hskip as [Hi Hskip]. unfold satisfied in Hi.
    apply negb_true_iff in Hi. rewrite Hi. by apply IH.
  - intros Hitem. by apply filter_next.
Qed.

Lemma nat_of_ascii_inj (a b : ascii) : nat_of_ascii a = nat_of_ascii b -> a = b.
Proof.
  intros H. rewrite <- (ascii_nat_embedding a), <- (ascii_nat_embedding b).
  by rewrite H.
Qed.

Lemma lower_char_capital (c : ascii) :
  is_capital c = true ->
  nat_of_ascii (lower_char c) = (nat_of_ascii c + 32)%nat /\
  is_capital (lower_char c) = false.
Proof.
  intros Hc. unfold lower_char. fold (is_capital c). rewrite Hc.
  unfold is_capital in *. apply andb_true_iff in Hc as [H1 H2].
  apply Nat.leb_le in H1, H2.
  rewrite nat_ascii_embedding by lia. split; [done|].
  apply andb_false_iff. right. apply Nat.leb_gt. lia.
Qed.

Lemma lower_char_other (c : ascii) : is_capital c = false -> lower_char c = c.
Proof. intros Hc. unfold lower_char. fold (is_capital c). by rewrite Hc. Qed.

Lemma lower_char_same_letter (a b : ascii) :
  lower_char a = lower_char b <-> same_letter a b.
Proof.
  unfold same_letter. split.
  - intros H. destruct (is_capital a) eqn:Ha, (is_capital b) eqn:Hb.
    + left. apply nat_of_ascii_inj.
      destruct (lower_char_capital a Ha) as [Ea _].
      destruct (lower_char_capital b Hb) as [Eb _].
      rewrite H in Ea. lia.
    + right; left. split; [done|].
      destruct (lower_char_capital a Ha) as [Ea _].
      by rewrite H, lower_char_other in Ea.
    + right; right. split; [done|].
      destruct (lower_char_capital b Hb) as [Eb _].
      by rewrite <- H, lower_char_other in Eb.
    + left. by rewrite !lower_char_other in H.
  - intros [->|[[Ha Hb]|[Hb Ha]]]; [done| |].
    + destruct (lower_char_capital a Ha) as [Ea Ena].
      assert (is_capital b = false) as Hnb.
      { unfold is_capital in *. rewrite Hb.
        apply andb_true_iff in Ha as [H1 H2]. apply Nat.leb_le in H1, H2.
        apply andb_false_iff. right. apply Nat.leb_gt. lia. }
      rewrite (lower_char_other b Hnb). apply nat_of_ascii_inj. lia.
    + destruct (lower_char_capital b Hb) as [Eb Enb].
      assert (is_capital a = false) as Hna.
      { unfold is_capital in *. rewrite Ha.
        apply andb_true_iff in Hb as [H1 H2]. apply Nat.leb_le in H1, H2.
        apply andb_false_iff. right. apply Nat.leb_gt. lia. }
      rewrite (lower_char_other a Hna). apply nat_of_ascii_inj. lia.
Qed.

Lemma lower_same_ignoring_case (s t : string) :
  lower s = lower t <-> same_ignoring_case s t.
Proof.
  revert t. induction s as [|a s IH]; intros [|b t]; cbn; try (split; done).
  rewrite <- IH, <- lower_char_same_letter.
  split; [intros [= H1 H2]; done | intros [-> ->]; done].
Qed.

(** Matching by name ignores the case of letters.  For names written in
    ASCII, where [lower] is what [str.lower()] does: a name specification
    accepts exactly the items whose name is the given name up to the case of
    its letters. *)
Theorem name_specification_ignores_case (name0 : string) (item : Product) :
  is_ascii name0 = true ->
  is_ascii (ocp.name item) = true ->
  satisfied (NameSpecification name0) item = true <->
  same_ignoring_case (ocp.name item) name0.
Proof.
  intros _ _. unfold satisfied. cbn. rewrite bool_decide_eq_true.
  apply lower_same_ignoring_case.
Qed.

Example house_matches_in_any_case :
  satisfied (NameSpecification "house") house = true /\
  satisfied (NameSpecification "HOUSE") house = true /\
  satisfied (NameSpecification "horse") house = false.
Proof. split_and!; reflexivity. Qed.

(** ** isp.py *)

(** A machine put together from two delegates hands [print] to its printer
    and [scan] to its scanner, with the same result and the same output, and
    the other delegate plays no part; it has no [fax]. *)
Theorem machine_forwards_to_its_delegates
    (printer scanner other : instance) (document : string) (out : stdout) :
  call (NewMultiFunctionMachine printer scanner) "print" document out
  = call printer "print" document out /\
  call (NewMultiFunctionMachine printer scanner) "scan" document out
  = call scanner "scan" document out /\
  call (NewMultiFunctionMachine printer other) "print" document out
  = call (NewMultiFunctionMachine printer scanner) "print" document out /\
  call (NewMultiFunctionMachine other scanner) "scan" document out
  = call (NewMultiFunctionMachine printer scanner) "scan" document out /\
  call (NewMultiFunctionMachine printer scanner) "fax" document out
  = (Raise AttributeError, out).
Proof. split_and!; reflexivity. Qed.



(** The broad interface forces every operation on every device: each class
    under [Machine] answers [print], [fax] and [scan] alike, so a call never
    fails for want of the method.  What the answer is differs: [Machine]
    raises [NotImplementedError] for all three, the multi-function printer
    does nothing for all three, and the old-fashioned printer prints a
    fixed line whatever the document, does nothing for [fax] and raises
    [NotImplementedError] for [scan]. *)
Theorem broad_interface_answers_every_capability
    (c : class) (cap : capability) (document : string) (out : stdout) :
  c ∈ broad_devices ->
  is_Some (lookup_method c (operation cap)) /\
  fst (call (New c) (operation cap) document out) <> Raise AttributeError /\
  call (New Machine) (operation cap) document out = (Raise NotImplementedError, out) /\
  call (New MultiFunctionPrinter) (operation cap) document out = (Return tt, out) /\
  call (New OldFashionedPrinter) (operation cap) document out =
    match cap with
    | printing => (Return tt, out ++ ["Start printing..."])
    | faxing => (Return tt, out)
    | scanning => (Raise NotImplementedError, out)
    end.
Proof.
  intros Hc. unfold broad_devices in Hc.
  split_and!; try (by destruct cap).
  - destruct c; set_unfold in Hc; destruct_or?; try done; destruct cap; by eexists.
  - destruct c; set_unfold in Hc; destruct_or?; try done; by destruct cap.
Qed.

(** A device assembled as the segregated design intends performs every
    capability its class implements: [print] returns and prints the
    document, [scan] returns and prints nothing. *)
Theorem assembled_device_performs_what_it_implements
    (self : instance) (cap : capability) (document : string) (out : stdout) :
  assembled self ->
  implements (class_of self) cap = true ->
  call self (operation cap) document out =
  (Return tt, match cap with printing => out ++ [document] | _ => out end).
Proof.
  intros Hself. revert cap.
  induction Hself as [| |printer scanner Hp IHp Hs IHs Himp_p Himp_s];
    intros cap Hcap.
  - by destruct cap.
  - by destruct cap.
  - destruct cap; [| |discriminate Hcap].
    + change (call (NewMultiFunctionMachine printer scanner) (operation printing)
                document out)
        with (call printer (operation printing) document out).
      by apply IHp.
    + change (call (NewMultiFunctionMachine printer scanner) (operation scanning)
                document out)
        with (call scanner (operation scanning) document out).
      by apply IHs.
Qed.

(** ** dip.py *)

(** A query yields the objects of the stored edges whose subject has the
    given name and whose kind is [PARENT], once per edge and in the order of
    the store; on an empty store it yields nothing. *)
Theorem query_reads_the_store_in_order
    (h : heap) (self : ref) (es : list edge) (name0 : string) :
  Relationships.relations self h = Some es ->
  Relationships.to_list (Relationships.find_all_children_of self name0) h
  = Some (Return (map (fun r => name (snd r))
                    (List.filter (fun r => bool_decide (name (fst (fst r)) = name0)
                                           && bool_decide (snd (fst r) = PARENT)) es))).
Proof. apply find_all_children_of_spec. Qed.

(** A link is made whole or not at all, whatever the heap and whatever
    [self] is: when [self.relations] resolves to a list, the call returns
    and that list has both edges more; when it does not, the call raises and
    the heap is as it was.  In no case is one edge appended alone. *)
Theorem link_is_all_or_nothing (h : heap) (self : ref) (P C : Person) :
  (exists es h',
     Relationships.relations self h = Some es /\
     Relationships.add_parent_and_child self P C h = (Return tt, h') /\
     Relationships.relations self h'
     = Some (es ++ [(P, PARENT, C); (C, PARENT, P)])) \/
  (Relationships.relations self h = None /\
   exists e, Relationships.add_parent_and_child self P C h = (Raise e, h)).
Proof.
  destruct (Relationships.relations self h) as [es|] eqn:Hrel.
  - left. destruct (add_parent_and_child_relations h self es P C Hrel)
      as (h' & Hadd & Hrel' & _).
    by exists es, h'.
  - right. split; [done|].
    unfold Relationships.relations in Hrel.
    unfold Relationships.add_parent_and_child, py_bind at 1.
    destruct (Relationships.getattr self "relations" h) as [[l|e] h0] eqn:Hget;
      pose proof (getattr_reads _ _ _ _ _ Hget) as ->; [|by exists e].
    exists AttributeError. unfold py_bind, Relationships.append.
    by destruct (objects h !! l) as [[es|attrs]|].
Qed.

Lemma children_in_added_by_link name0 P C :
  children_in name0 (link P C) = added_by_link name0 P C.
Proof.
  unfold children_in, link, added_by_link, Relationships.is_parent_named. cbn.
  rewrite !(bool_decide_eq_true_2 (PARENT = PARENT)) by done.
  rewrite !andb_true_r. by repeat case_bool_decide.
Qed.

(** What a link changes in a query: the names found before are found again,
    in the same order, followed by the child if the query is for the
    parent's name and by the parent if it is for the child's name. *)
Theorem link_extends_every_query
    (h : heap) (self : ref) (es : list edge) (P C : Person) (name0 : string) :
  Relationships.relations self h = Some es ->
  exists h' before,
    Relationships.to_list (Relationships.find_all_children_of self name0) h
      = Some (Return before) /\
    Relationships.add_parent_and_child self P C h = (Return tt, h') /\
    Relationships.to_list (Relationships.find_all_children_of self name0) h'
      = Some (Return (before ++ added_by_link name0 P C)).
Proof.
  intros Hrel.
  destruct (add_parent_and_child_relations h self es P C Hrel)
    as (h' & Hadd & Hrel' & _).
  exists h', (children_in name0 es). split_and!; [|done|].
  - by apply find_all_children_of_spec.
  - rewrite (find_all_children_of_spec _ _ _ _ Hrel').
    by rewrite children_in_app, children_in_added_by_link.
Qed.

(** The loop runs over the list itself: a generator that has yielded its
    first name and is resumed after a link goes on over the longer list, so
    that the names it yields in all are those of a query made after the
    link. *)
Theorem suspended_query_sees_later_links
    (h h' : heap) (self : ref) (es : list edge) (P C : Person) (name0 : string)
    (first : string) (g : Relationships.generator) :
  Relationships.relations self h = Some es ->
  Relationships.next (Relationships.find_all_children_of self name0) h
    = (Return (Some first, g), h) ->
  Relationships.add_parent_and_child self P C h = (Return tt, h') ->
  exists rest,
    Relationships.to_list g h' = Some (Return rest) /\
    Relationships.to_list (Relationships.find_all_children_of self name0) h'
      = Some (Return (first :: rest)).
Proof.
  intros Hrel Hnext Hadd.
  destruct (relations_resolved _ _ _ Hrel) as (l & Hget & Hl & Hne).
  rewrite (add_parent_and_child_spec h self l es P C Hget Hl Hne) in Hadd.
  injection Hadd as <-.
  destruct (add_parent_and_child_relations h self es P C Hrel)
    as (h'' & Hadd' & Hrel' & _).
  rewrite (add_parent_and_child_spec h self l es P C Hget Hl Hne) in Hadd'.
  injection Hadd' as <-.
  rewrite (find_all_children_of_spec _ _ _ _ Hrel').
  unfold Relationships.find_all_children_of in Hnext. cbn in Hnext.
  unfold py_bind in Hnext. rewrite Hget in Hnext.
  unfold Relationships.resume in Hnext. rewrite Hl, drop_0 in Hnext.
  pose proof (loop_spec name0 es 0) as Hloop.
  destruct (Relationships.loop name0 es 0) as [[child pos']|]; [|discriminate].
  injection Hnext as <- <-. destruct Hloop as (k & -> & Hk & Hkids).
  exists (children_in name0 (drop (S k) es ++ link P C)). split.
  - unfold Relationships.to_list. cbn [Relationships.items_left objects].
    rewrite lookup_insert_eq.
    rewrite (consume_suspended _ l (es ++ link P C)); [|by cbn; rewrite lookup_insert_eq | lia].
    by rewrite drop_app_le by (cbn; lia).
  - by rewrite !children_in_app, Hkids.
Qed.

Lemma children_in_elem (name0 child : string) (es : list edge) :
  child ∈ children_in name0 es <->
  exists P C, (P, PARENT, C) ∈ es /\ name P = name0 /\ name C = child.
Proof.
  unfold children_in. rewrite list_elem_of_In, in_map_iff. split.
  - intros ([[P k] C] & <- & Hin). apply filter_In in Hin as [Hin Hr].
    unfold Relationships.is_parent_named in Hr. cbn in Hr.
    apply andb_true_iff in Hr as [H1 H2].
    apply bool_decide_eq_true in H1, H2. subst k.
    exists P, C. split_and!; [by apply list_elem_of_In | done | done].
  - intros (P & C & Hin & <- & <-). exists (P, PARENT, C). split; [done|].
    apply filter_In. split; [by apply list_elem_of_In|].
    apply is_parent_named_subject.
Qed.

Lemma link_all_spec (self : ref) (pairs : list (Person * Person)) :
  forall (h : heap) (es : list edge),
    Relationships.relations self h = Some es ->
    exists h',
      link_all self pairs h = (Return tt, h') /\
      Relationships.relations self h'
      = Some (es ++ flat_map (fun pc => link (fst pc) (snd pc)) pairs).
Proof.
  induction pairs as [|[P C] pairs IH]; intros h es Hrel; cbn.
  - exists h. by rewrite app_nil_r.
  - destruct (add_parent_and_child_relations h self es P C Hrel)
      as (h1 & Hadd & Hrel1 & _).
    destruct (IH h1 _ Hrel1) as (h' & Hall & Hrel').
    exists h'. unfold py_bind. rewrite Hadd. split; [done|].
    rewrite Hrel'. by rewrite <- app_assoc.
Qed.

Lemma linked_edges_mirrored (pairs : list (Person * Person)) (P C : Person) :
  (P, PARENT, C) ∈ flat_map (fun pc => link (fst pc) (snd pc)) pairs ->
  (C, PARENT, P) ∈ flat_map (fun pc => link (fst pc) (snd pc)) pairs.
Proof.
  rewrite !list_elem_of_In, !in_flat_map.
  intros ([P0 C0] & Hin & Hr). exists (P0, C0). split; [done|].
  cbn in *. destruct Hr as [[= <- <-]|[[= <- <-]|[]]]; auto.
Qed.

(** In a store filled by links alone the query cannot tell parents from
    children: one name is yielded for another exactly when the other is
    yielded for the one. *)
Theorem linked_store_query_is_symmetric
    (h : heap) (self : ref) (pairs : list (Person * Person)) (a b : string) :
  Relationships.relations self h = Some [] ->
  exists h' for_a for_b,
    link_all self pairs h = (Return tt, h') /\
    Relationships.to_list (Relationships.find_all_children_of self a) h'
      = Some (Return for_a) /\
    Relationships.to_list (Relationships.find_all_children_of self b) h'
      = Some (Return for_b) /\
    (b ∈ for_a <-> a ∈ for_b).
Proof.
  intros Hrel. destruct (link_all_spec self pairs h [] Hrel) as (h' & Hall & Hrel').
  cbn [app] in Hrel'.
  eexists h', _, _. split_and!; [done | by apply find_all_children_of_spec..|].
  rewrite !children_in_elem.
  split; intros (P & C & Hin & HP & HC); exists C, P;
    (split_and!; [by apply linked_edges_mirrored | done | done]).
Qed.

(** Constructing an instance changes nothing for the instances there are:
    each still sees the edges it saw, and the new instance is none of
    them. *)
Theorem new_instance_leaves_store_alone (h : heap) (self : ref) (es : list edge) :
  Relationships.relations self h = Some es ->
  exists r h',
    Relationships.new h = (Return r, h') /\
    r <> self /\
    Relationships.relations self h' = Some es.
Proof.
  intros Hrel. destruct (relations_resolved _ _ _ Hrel) as (l & Hget & Hl & Hne).
  destruct (new_spec h) as [Hnew Hfresh]. cbn zeta in *.
  set (r := fresh (dom (objects h))) in *.
  assert (is_Some (objects h !! self)) as [o Hself].
  { unfold Relationships.getattr in Hget.
    destruct (objects h !! self); [by eexists | discriminate]. }
  assert (r <> self) as Hr by congruence.
  assert (r <> l) as Hrl by congruence.
  eexists r, _. split_and!; [exact Hnew | done |].
  set (h' := {| objects := _; class_attrs := _ |}).
  unfold Relationships.relations.
  pose proof (getattr_frame h h' self "relations") as Hfr.
  destruct (Relationships.getattr self "relations" h') as [o' h''] eqn:Hget'.
  rewrite Hget in Hfr. cbn in Hfr. rewrite Hfr; [| |done].
  - subst h'. cbn. rewrite lookup_insert_ne by done. by rewrite Hl.
  - subst h'. cbn. by rewrite lookup_insert_ne.
Qed.

(** [Research] prints one line for each name the query for "John" yields,
    in that order, and nothing when no stored edge has a subject of that
    name. *)
Theorem research_prints_the_children_of_john
    (h : heap) (browser : ref) (es : list edge) :
  Relationships.relations browser h = Some es ->
  exists children,
    Relationships.to_list (Relationships.find_all_children_of browser "John") h
      = Some (Return children) /\
    Research browser h
      = Some (Return (map (fun p => "John has a child called " +:+ p) children)) /\
    ((forall r, r ∈ es -> name (fst (fst r)) <> "John") ->
     Research browser h = Some (Return [])).
Proof.
  intros Hrel. exists (children_in "John" es).
  pose proof (find_all_children_of_spec h browser es "John" Hrel) as Hq.
  unfold Research. rewrite Hq. split_and!; [done..|].
  intros Hnone. unfold children_in.
  assert (List.filter (Relationships.is_parent_named "John") es = []) as ->; [|done].
  clear Hrel Hq. induction es as [|r es IH]; cbn; [done|].
  destruct (Relationships.is_parent_named "John" r) eqn:Hr.
  - exfalso. apply (Hnone r); [by left|].
    unfold Relationships.is_parent_named in Hr.
    apply andb_true_iff in Hr as [Hr _]. by apply bool_decide_eq_true in Hr.
  - apply IH. intros. apply Hnone. by right.
Qed.

(** ** The further properties at the inputs of the scripts *)

Lemma remove_entry_in_range_witness :
  let self := shopping_list in
  let pos := -1 in
  let len := Z.of_nat (length (ShoppingList.entries self)) in
  - len <= pos < len /\
  let i := Z.to_nat (if pos <? 0 then pos + len else pos) in
  ShoppingList.remove_entry pos self =
  (Return tt,
   {| ShoppingList.entries :=
        take i (ShoppingList.entries self) ++ drop (S i) (ShoppingList.entries self);
      ShoppingList.count := ShoppingList.count self - 1 |}) /\
  (pos < 0 ->
   ShoppingList.remove_entry pos self = ShoppingList.remove_entry (pos + len) self).
Proof.
  cbn zeta.
  assert (- Z.of_nat (length (ShoppingList.entries shopping_list)) <= -1
          < Z.of_nat (length (ShoppingList.entries shopping_list))) as Hpos
    by (vm_compute; split; [discriminate | reflexivity]).
  split; [exact Hpos|].
  exact (remove_entry_in_range shopping_list (-1) Hpos).
Defined.

Lemma labels_are_reused_witness :
  let cs := [ShoppingList.AddEntry "bread"; ShoppingList.AddEntry "phone"] in
  let self := shopping_list in
  let len := Z.of_nat (length (ShoppingList.entries self)) in
  ShoppingList.run cs ShoppingList.__init__ = (Return tt, self) /\
  0 <= 0 < len /\
  ShoppingList.run
    [ShoppingList.AddEntry "milk"; ShoppingList.RemoveEntry 0;
     ShoppingList.AddEntry "eggs"] self =
  (Return tt,
   {| ShoppingList.entries :=
        delete (Z.to_nat 0) (ShoppingList.entries self)
          ++ [ShoppingList.label len "milk"; ShoppingList.label len "eggs"];
      ShoppingList.count := len + 1 |}).
Proof.
  cbn zeta.
  assert (0 <= 0 < Z.of_nat (length (ShoppingList.entries shopping_list))) as Hpos
    by (vm_compute; split; [discriminate | reflexivity]).
  split; [reflexivity|]. split; [exact Hpos|].
  exact (labels_are_reused
           [ShoppingList.AddEntry "bread"; ShoppingList.AddEntry "phone"]
           shopping_list "milk" "eggs" 0 eq_refl Hpos).
Defined.

Lemma save_to_file_cannot_open_witness :
  let filename := "/tmp/shopping-list.txt" in
  io.open_error read_only_world filename = Some OSError /\
  PersistenceManager.save_to_file shopping_list filename read_only_world
  = (Raise OSError, read_only_world).
Proof.
  cbn zeta. split; [reflexivity|].
  apply save_to_file_cannot_open. reflexivity.
Defined.


Lemma conjunction_ignores_order_and_repetition_witness :
  let args := [large; ColorSpecification BLUE] in
  let args' := [ColorSpecification BLUE; large; large] in
  (forall spec, spec ∈ args <-> spec ∈ args') /\
  satisfied (AndSpecification args) house = satisfied (AndSpecification args') house /\
  satisfied (__and__ large (ColorSpecification BLUE)) house
  = satisfied (__and__ (ColorSpecification BLUE) large) house /\
  satisfied (__and__ large large) house = satisfied large house.
Proof.
  cbn zeta.
  assert (forall spec, spec ∈ [large; ColorSpecification BLUE]
                       <-> spec ∈ [ColorSpecification BLUE; large; large]) as Hsame
    by (intros spec; rewrite !elem_of_cons, !elem_of_nil; tauto).
  split; [exact Hsame|].
  exact (conjunction_ignores_order_and_repetition _ _
           large (ColorSpecification BLUE) house Hsame).
Defined.

Lemma filter_first_next_witness :
  forallb (fun i => negb (satisfied large i)) [apple] = true /\
  next (BetterFilter.filter [apple] large) = None /\
  (satisfied large tree = true ->
   next (BetterFilter.filter ([apple] ++ tree :: [house]) large)
   = Some (tree, BetterFilter.filter [house] large)).
Proof.
  split; [reflexivity|].
  apply (filter_first_next [apple] [house] tree large). reflexivity.
Defined.

Lemma broad_interface_answers_every_capability_witness :
  OldFashionedPrinter ∈ broad_devices /\
  is_Some (lookup_method OldFashionedPrinter (operation scanning)) /\
  fst (call (New OldFashionedPrinter) (operation scanning) "123" [])
    <> Raise AttributeError /\
  call (New Machine) (operation scanning) "123" [] = (Raise NotImplementedError, []) /\
  call (New MultiFunctionPrinter) (operation scanning) "123" [] = (Return tt, []) /\
  call (New OldFashionedPrinter) (operation scanning) "123" []
  = (Raise NotImplementedError, []).
Proof.
  assert (OldFashionedPrinter ∈ broad_devices) as Hc
    by (apply (bool_decide_unpack _); reflexivity).
  split; [exact Hc|].
  exact (broad_interface_answers_every_capability
           OldFashionedPrinter scanning "123" [] Hc).
Defined.

Lemma assembled_device_performs_what_it_implements_witness :
  let self := NewMultiFunctionMachine (New MyPrinter) (New Photocopier) in
  assembled self /\
  implements (class_of self) printing = true /\
  call self (operation printing) "123" [] = (Return tt, [] ++ ["123"]).
Proof.
  cbn zeta.
  assert (assembled (NewMultiFunctionMachine (New MyPrinter) (New Photocopier)))
    as Hself by (constructor; (constructor || reflexivity)).
  split; [exact Hself|]. split; [reflexivity|].
  exact (assembled_device_performs_what_it_implements _ printing "123" []
           Hself eq_refl).
Defined.

Lemma query_reads_the_store_in_order_witness :
  let es := [(parent, PARENT, child1); (child1, PARENT, parent)] in
  Relationships.relations relationships linked_heap = Some es /\
  Relationships.to_list (Relationships.find_all_children_of relationships "John")
    linked_heap
  = Some (Return (map (fun r => name (snd r))
                    (List.filter (fun r => bool_decide (name (fst (fst r)) = "John")
                                           && bool_decide (snd (fst r) = PARENT)) es))).
Proof.
  cbn zeta. split; [reflexivity|].
  apply query_reads_the_store_in_order. reflexivity.
Defined.

Lemma link_extends_every_query_witness :
  Relationships.relations relationships linked_heap
  = Some [(parent, PARENT, child1); (child1, PARENT, parent)] /\
  exists h' before,
    Relationships.to_list (Relationships.find_all_children_of relationships "John")
      linked_heap
      = Some (Return before) /\
    Relationships.add_parent_and_child relationships parent child2 linked_heap
      = (Return tt, h') /\
    Relationships.to_list (Relationships.find_all_children_of relationships "John") h'
      = Some (Return (before ++ added_by_link "John" parent child2)).
Proof.
  split; [reflexivity|].
  apply (link_extends_every_query linked_heap relationships
           [(parent, PARENT, child1); (child1, PARENT, parent)]).
  reflexivity.
Defined.

Lemma suspended_query_sees_later_links_witness :
  let h' :=
    snd (Relationships.add_parent_and_child relationships parent child2 linked_heap) in
  let g := Relationships.Suspended 0%nat 1%nat "John" in
  Relationships.relations relationships linked_heap
  = Some [(parent, PARENT, child1); (child1, PARENT, parent)] /\
  Relationships.next (Relationships.find_all_children_of relationships "John")
    linked_heap
  = (Return (Some "Chris", g), linked_heap) /\
  Relationships.add_parent_and_child relationships parent child2 linked_heap
  = (Return tt, h') /\
  exists rest,
    Relationships.to_list g h' = Some (Return rest) /\
    Relationships.to_list (Relationships.find_all_children_of relationships "John") h'
      = Some (Return ("Chris" :: rest)).
Proof.
  cbn zeta. split; [reflexivity|]. split; [reflexivity|]. split; [reflexivity|].
  apply (suspended_query_sees_later_links linked_heap _ relationships
           [(parent, PARENT, child1); (child1, PARENT, parent)] parent child2 "John");
    reflexivity.
Defined.

Lemma linked_store_query_is_symmetric_witness :
  let pairs := [(parent, child1); (parent, child2)] in
  Relationships.relations relationships main_heap = Some [] /\
  exists h' for_a for_b,
    link_all relationships pairs main_heap = (Return tt, h') /\
    Relationships.to_list (Relationships.find_all_children_of relationships "John") h'
      = Some (Return for_a) /\
    Relationships.to_list (Relationships.find_all_children_of relationships "Chris") h'
      = Some (Return for_b) /\
    ("Chris" ∈ for_a <-> "John" ∈ for_b).
Proof.
  cbn zeta. split; [reflexivity|].
  apply linked_store_query_is_symmetric. reflexivity.
Defined.

Lemma new_instance_leaves_store_alone_witness :
  let es := [(parent, PARENT, child1); (child1, PARENT, parent)] in
  Relationships.relations relationships linked_heap = Some es /\
  exists r h',
    Relationships.new linked_heap = (Return r, h') /\
    r <> relationships /\
    Relationships.relations relationships h' = Some es.
Proof.
  cbn zeta. split; [reflexivity|].
  apply new_instance_leaves_store_alone. reflexivity.
Defined.

Lemma research_prints_the_children_of_john_witness :
  let es := [(parent, PARENT, child1); (child1, PARENT, parent)] in
  Relationships.relations relationships linked_heap = Some es /\
  exists children,
    Relationships.to_list (Relationships.find_all_children_of relationships "John")
      linked_heap
      = Some (Return children) /\
    Research relationships linked_heap
      = Some (Return (map (fun p => "John has a child called " +:+ p) children)) /\
    ((forall r, r ∈ es -> name (fst (fst r)) <> "John") ->
     Research relationships linked_heap = Some (Return [])).
Proof.
  cbn zeta. split; [reflexivity|].
  apply research_prints_the_children_of_john. reflexivity.
Defined.

Lemma name_specification_ignores_case_witness :
  is_ascii "HOUSE" = true /\
  is_ascii (ocp.name house) = true /\
  (satisfied (NameSpecification "HOUSE") house = true <->
   same_ignoring_case (ocp.name house) "HOUSE").
Proof.
  split; [reflexivity|]. split; [reflexivity|].
  apply name_specification_ignores_case; reflexivity.
Defined.
